(** * Rechenberg's (1+1)-ES with the 1/5th success rule (pypop7, [res.py])

    A shallow embedding of [pypop7/optimizers/es/res.py] (class [RES]) and
    the properties of its step-size control loop, incumbent selection,
    restart logic and construction-time validation.

    Conventions of the embedding.
    - Python floats are idealised as real numbers ([R]); a comparison
      [a < b] of floats is the boolean [ltR a b].
    - The optimizer object ([self]) is the record [self.t]; every method
      takes the object and returns the object it leaves behind.
    - The local variables [mean], [y], [best_so_far_y] and the list
      [fitness] of [optimize] are the record [local.t]; the list is shared
      by reference with [restart_initialize], which is modelled by passing
      the record in and out.
    - A Python exception is the [Raise] case of [Exc].
    - The user's objective function is taken to return a float: an
      exception raised inside it leaves the class untouched and is not
      part of this model. *)

From Stdlib Require Import Reals Lra Lia ZArith List Bool Arith.
Import ListNotations.

Open Scope R_scope.

(** ** Floats as reals *)

(** [a < b] as Python evaluates it, a boolean. *)
Definition ltR (a b : R) : bool := if Rlt_dec a b then true else false.

(** [float(b)] of a Python boolean. *)
Definition float_of_bool (b : bool) : R := if b then 1 else 0.

(** ** Exceptions *)

Inductive exn : Type :=
| AssertionError
| IndexError.

Inductive Exc (A : Type) : Type :=
| Return (a : A)
| Raise (e : exn).

Arguments Return {A} a.
Arguments Raise {A} e.

Definition bind {A B : Type} (m : Exc A) (k : A -> Exc B) : Exc B :=
  match m with
  | Return a => k a
  | Raise e => Raise e
  end.

Notation "x <- m ;; k" := (bind m (fun x => k))
  (at level 61, m at next level, right associativity).

(** ** Python lists *)

(** [l[i]] with Python's negative indices; out of range raises. *)
Definition getitem {A : Type} (l : list A) (i : Z) : Exc A :=
  let n := Z.of_nat (length l) in
  let j := if (i <? 0)%Z then (i + n)%Z else i in
  if ((0 <=? j)%Z && (j <? n)%Z)%bool then
    match nth_error l (Z.to_nat j) with
    | Some a => Return a
    | None => Raise IndexError
    end
  else Raise IndexError.

(** [len(l)] as a Python integer. *)
Definition len {A : Type} (l : list A) : Z := Z.of_nat (length l).

(** [a + s * z] on vectors, coordinate by coordinate. *)
Fixpoint axpy (a : list R) (s : R) (z : list R) : list R :=
  match a, z with
  | ai :: a', zi :: z' => (ai + s * zi) :: axpy a' s z'
  | _, _ => []
  end.

(** ** The optimizer object *)

Module self.

(** The attributes of [self] that [res.py] reads or writes, with the
    evaluation counter and the initial mean that the base class keeps.
    [Eta] is the type of [eta_sigma]: [option R] while the attribute may
    still be [None] (as [ES.__init__] leaves it), [R] once [RES.__init__]
    has defaulted and checked it. [rng_optimization] is the position
    reached in the stream of the seeded generator. *)
Record t (Eta : Type) : Type := mk {
  ndim_problem : nat;
  mean : list R;
  sigma : R;
  eta_sigma : Eta;
  _sigma_bak : R;
  sigma_threshold : R;
  stagnation : Z;
  fitness_diff : R;
  is_restart : bool;
  record_fitness : bool;
  n_restart : nat;
  _n_generations : nat;
  _fitness_list : list R;
  n_function_evaluations : nat;
  best_so_far_y : R;
  rng_optimization : nat
}.

Arguments mk {Eta}.
Arguments ndim_problem {Eta}.
Arguments mean {Eta}.
Arguments sigma {Eta}.
Arguments eta_sigma {Eta}.
Arguments _sigma_bak {Eta}.
Arguments sigma_threshold {Eta}.
Arguments stagnation {Eta}.
Arguments fitness_diff {Eta}.
Arguments is_restart {Eta}.
Arguments record_fitness {Eta}.
Arguments n_restart {Eta}.
Arguments _n_generations {Eta}.
Arguments _fitness_list {Eta}.
Arguments n_function_evaluations {Eta}.
Arguments best_so_far_y {Eta}.
Arguments rng_optimization {Eta}.

(** Assignment to one attribute. *)

Definition set_eta_sigma {E F : Type} (v : F) (s : t E) : t F :=
  mk (ndim_problem s) (mean s) (sigma s) v (_sigma_bak s)
     (sigma_threshold s) (stagnation s) (fitness_diff s) (is_restart s)
     (record_fitness s) (n_restart s) (_n_generations s) (_fitness_list s)
     (n_function_evaluations s) (best_so_far_y s) (rng_optimization s).

Definition set_sigma {E : Type} (v : R) (s : t E) : t E :=
  mk (ndim_problem s) (mean s) v (eta_sigma s) (_sigma_bak s)
     (sigma_threshold s) (stagnation s) (fitness_diff s) (is_restart s)
     (record_fitness s) (n_restart s) (_n_generations s) (_fitness_list s)
     (n_function_evaluations s) (best_so_far_y s) (rng_optimization s).

Definition set_n_restart {E : Type} (v : nat) (s : t E) : t E :=
  mk (ndim_problem s) (mean s) (sigma s) (eta_sigma s) (_sigma_bak s)
     (sigma_threshold s) (stagnation s) (fitness_diff s) (is_restart s)
     (record_fitness s) v (_n_generations s) (_fitness_list s)
     (n_function_evaluations s) (best_so_far_y s) (rng_optimization s).

Definition set__n_generations {E : Type} (v : nat) (s : t E) : t E :=
  mk (ndim_problem s) (mean s) (sigma s) (eta_sigma s) (_sigma_bak s)
     (sigma_threshold s) (stagnation s) (fitness_diff s) (is_restart s)
     (record_fitness s) (n_restart s) v (_fitness_list s)
     (n_function_evaluations s) (best_so_far_y s) (rng_optimization s).

Definition set__fitness_list {E : Type} (v : list R) (s : t E) : t E :=
  mk (ndim_problem s) (mean s) (sigma s) (eta_sigma s) (_sigma_bak s)
     (sigma_threshold s) (stagnation s) (fitness_diff s) (is_restart s)
     (record_fitness s) (n_restart s) (_n_generations s) v
     (n_function_evaluations s) (best_so_far_y s) (rng_optimization s).

Definition set_n_function_evaluations {E : Type} (v : nat) (s : t E) : t E :=
  mk (ndim_problem s) (mean s) (sigma s) (eta_sigma s) (_sigma_bak s)
     (sigma_threshold s) (stagnation s) (fitness_diff s) (is_restart s)
     (record_fitness s) (n_restart s) (_n_generations s) (_fitness_list s)
     v (best_so_far_y s) (rng_optimization s).

Definition set_best_so_far_y {E : Type} (v : R) (s : t E) : t E :=
  mk (ndim_problem s) (mean s) (sigma s) (eta_sigma s) (_sigma_bak s)
     (sigma_threshold s) (stagnation s) (fitness_diff s) (is_restart s)
     (record_fitness s) (n_restart s) (_n_generations s) (_fitness_list s)
     (n_function_evaluations s) v (rng_optimization s).

Definition set_rng_optimization {E : Type} (v : nat) (s : t E) : t E :=
  mk (ndim_problem s) (mean s) (sigma s) (eta_sigma s) (_sigma_bak s)
     (sigma_threshold s) (stagnation s) (fitness_diff s) (is_restart s)
     (record_fitness s) (n_restart s) (_n_generations s) (_fitness_list s)
     (n_function_evaluations s) (best_so_far_y s) v.

End self.

(** The object as [ES.__init__] leaves it, and as [RES.__init__] does. *)
Definition ES : Type := self.t (option R).
Definition RES : Type := self.t R.

(** ** The local variables of [optimize] *)

Module local.

Record t : Type := mk {
  mean : list R;
  y : R;
  best_so_far_y : R;
  fitness : list R
}.

End local.

(** ** Construction *)

(** [RES.__init__] (lines 111-115), after [ES.__init__] has built [es]:
    the learning rate defaults to [1.0 / np.sqrt(ndim_problem + 1.0)],
    and a rate that is not positive fails the assertion. *)
Definition __init__ (es : ES) : Exc RES :=
  let eta_sigma :=
    match self.eta_sigma es with
    | None => 1 / sqrt (INR (self.ndim_problem es) + 1)
    | Some e => e
    end in
  if ltR 0 eta_sigma then Return (self.set_eta_sigma eta_sigma es)
  else Raise AssertionError.

(** Modelled from the spec: [ES.__init__] is not in the sources. Of the
    object it builds the spec says that the backup of sigma is the initial
    sigma saved at construction, and that the generation, evaluation and
    restart counts start a run at zero. *)
Definition ES_initialized {E : Type} (s : self.t E) : Prop :=
  self._sigma_bak s = self.sigma s /\
  self.n_restart s = 0%nat /\
  self._n_generations s = 0%nat /\
  self.n_function_evaluations s = 0%nat.

(** ** The surroundings of the class *)

(** The type of the auxiliary [args], the objective function, and the
    helpers of the base class that the sources do not contain.

    Modelled from the spec: [standard_normal k n] is the [k]-th vector of
    [n] standard-normal numbers of the run's seeded generator;
    [restart_point k n] is the restart point the base class draws when the
    stream stands at [k] (the spec has restarts draw from the same stream);
    [_check_terminations] is a query of the object without side effect,
    whose verdict (budgets, wall clock, other stop conditions) is left
    open. *)
Class Collaborator : Type := {
  Args : Type;
  fitness_function : list R -> option Args -> R;
  standard_normal : nat -> nat -> list R;
  restart_point : nat -> nat -> list R;
  _check_terminations : RES -> bool
}.

(** ** The methods *)

Section Run.

Context {base : Collaborator}.

(** Modelled from the spec: [_evaluate_fitness] of the base class, not in
    the sources. It calls the objective, counts the evaluation and keeps
    the object's best-so-far fitness. *)
Definition _evaluate_fitness (st : RES) (x : list R) (args : option Args)
  : R * RES :=
  let y := fitness_function x args in
  let st := self.set_n_function_evaluations
              (S (self.n_function_evaluations st)) st in
  let st := if ltR y (self.best_so_far_y st)
            then self.set_best_so_far_y y st else st in
  (y, st).

(** Modelled from the spec: [_initialize_mean] of the base class, not in
    the sources. The first call returns the user's initial mean, a restart
    call a freshly drawn point. *)
Definition _initialize_mean (st : RES) (is_restart : bool) : list R * RES :=
  if is_restart then
    (restart_point (self.rng_optimization st) (self.ndim_problem st),
     self.set_rng_optimization (S (self.rng_optimization st)) st)
  else (self.mean st, st).

(** Modelled from the spec: [_print_verbose_info] of the base class, not in
    the sources; it prints and leaves the object as it is. *)
Definition _print_verbose_info (st : RES) (y : R) : RES := st.

(** [initialize] (lines 117-121): returns [(mean, y, best_so_far_y)]. *)
Definition initialize (st : RES) (args : option Args) (is_restart : bool)
  : (list R * R * R) * RES :=
  let '(mean, st) := _initialize_mean st is_restart in
  let '(y, st) := _evaluate_fitness st mean args in
  let best_so_far_y := y in
  ((mean, y, best_so_far_y), st).

(** [iterate] (lines 123-127): samples and evaluates the one offspring. *)
Definition iterate (st : RES) (args : option Args) (mean : list R)
  : (list R * R) * RES :=
  let z := standard_normal (self.rng_optimization st) (self.ndim_problem st) in
  let st := self.set_rng_optimization (S (self.rng_optimization st)) st in
  let x := axpy mean (self.sigma st) z in
  let '(y, st) := _evaluate_fitness st x args in
  ((x, y), st).

(** Line 131: the first detector, on the step size. *)
Definition is_restart_1 (st : RES) : bool :=
  ltR (self.sigma st) (self.sigma_threshold st).

(** Lines 131-133: the second detector, on the rolling fitness history;
    [False] while the history is shorter than [stagnation]. *)
Definition is_restart_2 (st : RES) : Exc bool :=
  if (self.stagnation st <=? len (self._fitness_list st))%Z then
    a <- getitem (self._fitness_list st) (- self.stagnation st) ;;
    b <- getitem (self._fitness_list st) (-1) ;;
    Return (ltR (a - b) (self.fitness_diff st))
  else Return false.

(** [restart_initialize] (lines 129-141). The arguments [mean], [y],
    [best_so_far_y] and [fitness] come in as [l]; the record that is
    returned holds the three returned values and the list [fitness] as the
    call leaves it. *)
Definition restart_initialize (st : RES) (args : option Args) (l : local.t)
  : Exc (RES * local.t) :=
  let st := self.set__fitness_list
              (self._fitness_list st ++ [self.best_so_far_y st]) st in
  let is_restart_1 := is_restart_1 st in
  is_restart_2 <- is_restart_2 st ;;
  let is_restart := (is_restart_1 || is_restart_2)%bool in
  if is_restart then
    let st := self.set_n_restart (S (self.n_restart st)) st in
    let st := self.set_sigma (self._sigma_bak st) st in
    let '((mean, y, best_so_far_y), st) := initialize st args is_restart in
    let fitness := local.fitness l ++ [y] in
    let st := self.set__fitness_list [best_so_far_y] st in
    Return (st, local.mk mean y best_so_far_y fitness)
  else Return (st, l).

(** *** One turn of the loop of [optimize] *)

(** Lines 148-150: the offspring is sampled and evaluated, and its fitness
    recorded when [record_fitness] is set. *)
Definition sample (st : RES) (args : option Args) (l : local.t)
  : list R * RES * local.t :=
  let '((x, y), st) := iterate st args (local.mean l) in
  let fitness := if self.record_fitness st
                 then local.fitness l ++ [y] else local.fitness l in
  (x, st, local.mk (local.mean l) y (local.best_so_far_y l) fitness).

(** Lines 153-157: the 1/5th rule on sigma, the generation counter, the
    verbose line, and the replacement of the incumbent. *)
Definition adapt (st : RES) (x : list R) (l : local.t) : RES * local.t :=
  let y := local.y l in
  let best_so_far_y := local.best_so_far_y l in
  let st := self.set_sigma
              (self.sigma st *
               Rpower (exp (float_of_bool (ltR y best_so_far_y) - 1 / 5))
                      (self.eta_sigma st)) st in
  let st := self.set__n_generations (S (self._n_generations st)) st in
  let st := _print_verbose_info st y in
  let l := if ltR y best_so_far_y
           then local.mk x y y (local.fitness l) else l in
  (st, l).

(** How one turn of [while True] ends. *)
Inductive outcome : Type :=
| Break (st : RES) (l : local.t)
| Continue (st : RES) (l : local.t)
| Raised (e : exn).

(** Lines 148-159, one generation. *)
Definition generation (args : option Args) (st : RES) (l : local.t)
  : outcome :=
  let '(x, st, l) := sample st args l in
  if _check_terminations st then Break st l
  else
    let '(st, l) := adapt st x l in
    if self.is_restart st then
      match restart_initialize st args l with
      | Return (st, l) => Continue st l
      | Raise e => Raised e
      end
    else Continue st l.

(** Lines 144-146: the state in which the loop is entered. The base class's
    [ES.optimize] hands out the empty list [fitness]. *)
Definition loop_entry (st : RES) (args : option Args) : RES * local.t :=
  let fitness := @nil R in
  let '((mean, y, best_so_far_y), st) := initialize st args false in
  let fitness := fitness ++ [y] in
  (st, local.mk mean y best_so_far_y fitness).

(** The loop [while True] (lines 147-159), with fuel; [None] when the fuel
    is used up before the loop is left. *)
Fixpoint while_true (fuel : nat) (args : option Args) (st : RES) (l : local.t)
  : option (Exc (RES * local.t)) :=
  match fuel with
  | O => None
  | S fuel =>
      match generation args st l with
      | Break st l => Some (Return (st, l))
      | Continue st l => while_true fuel args st l
      | Raised e => Some (Raise e)
      end
  end.

(** Modelled from the spec: the record that [_collect_results] (base class,
    not in the sources) packages: trace, final mean, best fitness, and
    the counts. *)
Record results : Type := mk_results {
  r_fitness : list R;
  r_mean : list R;
  r_best_so_far_y : R;
  r_n_function_evaluations : nat;
  r__n_generations : nat;
  r_n_restart : nat
}.

(** Modelled from the spec: [_collect_results] fills that record from the
    trace and mean it is handed and from the object's counts. *)
Definition _collect_results (st : RES) (fitness : list R) (mean : list R)
  : results :=
  mk_results fitness mean (self.best_so_far_y st)
             (self.n_function_evaluations st) (self._n_generations st)
             (self.n_restart st).

(** [optimize] (lines 143-160). *)
Definition optimize (fuel : nat) (st : RES) (args : option Args)
  : option (Exc results) :=
  let '(st, l) := loop_entry st args in
  match while_true fuel args st l with
  | None => None
  | Some (Raise e) => Some (Raise e)
  | Some (Return (st, l)) =>
      Some (Return (_collect_results st (local.fitness l) (local.mean l)))
  end.

(** The states in which the head of the loop (line 147) is reached in a
    run on the object [st0]. *)
Inductive loop_head (args : option Args) (st0 : RES) : RES -> local.t -> Prop :=
| head_entry : forall st l,
    loop_entry st0 args = (st, l) -> loop_head args st0 st l
| head_next : forall st l st' l',
    loop_head args st0 st l ->
    generation args st l = Continue st' l' ->
    loop_head args st0 st' l'.

End Run.

(** ** The restart rule in the spec's words *)

(** The object once line 130 has appended to the rolling history. *)
Definition appended (st : RES) : RES :=
  self.set__fitness_list
    (self._fitness_list st ++ [self.best_so_far_y st]) st.

(** Detector A: true iff sigma < sigmaThreshold. *)
Definition DetectorA (st : RES) : Prop :=
  self.sigma st < self.sigma_threshold st.

(** Detector B: true iff the history has at least stagnationWindow entries
    and history[-stagnationWindow] - history[-1] < fitnessDiffThreshold. *)
Definition DetectorB (st : RES) : Prop :=
  (self.stagnation st <= len (self._fitness_list st))%Z /\
  exists a b : R,
    getitem (self._fitness_list st) (- self.stagnation st) = Return a /\
    getitem (self._fitness_list st) (-1) = Return b /\
    a - b < self.fitness_diff st.

(** A restart fired between [st] and [st']: the counter went up by one. *)
Definition restart_fired (st st' : RES) : Prop :=
  self.n_restart st' = S (self.n_restart st).

(** ** Sample runs *)

(** The sum of squares. *)
Definition sphere (x : list R) : R :=
  fold_right (fun xi s => xi * xi + s) 0 x.

(** Surroundings with the sphere as objective, a generator whose every
    draw is the vector of [-1], restart points at [5], and a budget of
    [budget] evaluations as the only stop condition. *)
Definition sphere_run (budget : nat) : Collaborator := {|
  Args := unit;
  fitness_function := fun x _ => sphere x;
  standard_normal := fun _ n => repeat (-1) n;
  restart_point := fun _ n => repeat 5 n;
  _check_terminations :=
    fun st => (budget <=? self.n_function_evaluations st)%nat
|}.

(** The options of a run in one dimension from the mean [3] with sigma [1]
    and learning rate [1]; the restart gate is [gate], the stagnation
    window [window], the two thresholds [1/2] and [1]. No evaluation has
    been made: the best-so-far fitness of the object is a large number. *)
Definition es_object (eta : option R) (gate : bool) (window : Z) : ES :=
  self.mk 1 [3] 1 eta 1 (1 / 2) window 1 gate true 0 0 [] 0 1000 0.

Definition res_object (gate : bool) (window : Z) : RES :=
  self.mk 1 [3] 1 1 1 (1 / 2) window 1 gate true 0 0 [] 0 1000 0.

(** The loop head of that run: one evaluation, of the mean [3]. *)
Definition res_entry (gate : bool) (window : Z) : RES :=
  self.mk 1 [3] 1 1 1 (1 / 2) window 1 gate true 0 0 [] 1 (3 * 3 + 0) 0.

Definition local_entry : local.t :=
  local.mk [3] (3 * 3 + 0) (3 * 3 + 0) [3 * 3 + 0].

(** The first generation of that run: the offspring [3 + 1 * -1], its
    fitness, and sigma after a success. *)
Definition offspring : list R := [3 + 1 * -1].
Definition offspring_y : R := (3 + 1 * -1) * (3 + 1 * -1) + 0.
Definition sigma_grown : R := 1 * Rpower (exp (1 - 1 / 5)) 1.

(** After line 150. *)
Definition res_sampled (gate : bool) (window : Z) : RES :=
  self.mk 1 [3] 1 1 1 (1 / 2) window 1 gate true 0 0 [] 2 offspring_y 1.

Definition local_sampled : local.t :=
  local.mk [3] offspring_y (3 * 3 + 0) [3 * 3 + 0; offspring_y].

(** After line 157. *)
Definition res_adapted (gate : bool) (window : Z) : RES :=
  self.mk 1 [3] sigma_grown 1 1 (1 / 2) window 1 gate true 0 1 []
          2 offspring_y 1.

Definition local_adapted : local.t :=
  local.mk offspring offspring_y offspring_y [3 * 3 + 0; offspring_y].

(** After line 159 when the gate is open and the window is [1]: the second
    detector fires, and the run restarts from the point [5]. *)
Definition res_restarted : RES :=
  self.mk 1 [3] 1 1 1 (1 / 2) 1 1 true true 1 1 [5 * 5 + 0]
          3 offspring_y 2.

Definition local_restarted : local.t :=
  local.mk [5] (5 * 5 + 0) (5 * 5 + 0) [3 * 3 + 0; offspring_y; 5 * 5 + 0].

(** The sample run with a sigma threshold of [10], above the initial
    sigma, the gate open and a window of five: the object, the loop head
    and the object after line 150. *)
Definition res_low_object : RES :=
  self.mk 1 [3] 1 1 1 10 5 1 true true 0 0 [] 0 1000 0.

Definition res_low_entry : RES :=
  self.mk 1 [3] 1 1 1 10 5 1 true true 0 0 [] 1 (3 * 3 + 0) 0.

Definition res_low_sampled : RES :=
  self.mk 1 [3] 1 1 1 10 5 1 true true 0 0 [] 2 offspring_y 1.

(** A run on the sphere whose first draw is [1] and whose later draws are
    [-1]: the first offspring is worse than the mean, the second better
    than the restart point [5]. *)
Definition sphere_walk : Collaborator := {|
  Args := unit;
  fitness_function := fun x _ => sphere x;
  standard_normal := fun k n => repeat (if (k =? 0)%nat then 1 else -1) n;
  restart_point := fun _ n => repeat 5 n;
  _check_terminations :=
    fun st => (100 <=? self.n_function_evaluations st)%nat
|}.

(** Its object: sigma [1], sigma threshold [1], gate open, window five. *)
Definition walk_object : RES :=
  self.mk 1 [3] 1 1 1 1 5 1 true true 0 0 [] 0 1000 0.

Definition walk_entry : RES :=
  self.mk 1 [3] 1 1 1 1 5 1 true true 0 0 [] 1 (3 * 3 + 0) 0.

(** The first generation: the offspring [3 + 1 * 1] fails, sigma shrinks
    below the threshold, the run restarts at [5]. *)
Definition walk_y1 : R := (3 + 1 * 1) * (3 + 1 * 1) + 0.
Definition sigma_shrunk : R := 1 * Rpower (exp (0 - 1 / 5)) 1.

Definition walk_sampled : RES :=
  self.mk 1 [3] 1 1 1 1 5 1 true true 0 0 [] 2 (3 * 3 + 0) 1.

Definition walk_local_sampled : local.t :=
  local.mk [3] walk_y1 (3 * 3 + 0) [3 * 3 + 0; walk_y1].

Definition walk_adapted : RES :=
  self.mk 1 [3] sigma_shrunk 1 1 1 5 1 true true 0 1 [] 2 (3 * 3 + 0) 1.

Definition walk_restarted : RES :=
  self.mk 1 [3] 1 1 1 1 5 1 true true 1 1 [5 * 5 + 0] 3 (3 * 3 + 0) 2.

Definition walk_local_restarted : local.t :=
  local.mk [5] (5 * 5 + 0) (5 * 5 + 0) [3 * 3 + 0; walk_y1; 5 * 5 + 0].

(** The second generation: the offspring [5 + 1 * -1] succeeds, sigma
    grows, no restart; line 130 appends the object's [best_so_far_y]. *)
Definition walk_x2 : list R := [5 + 1 * -1].
Definition walk_y2 : R := (5 + 1 * -1) * (5 + 1 * -1) + 0.

Definition walk_sampled2 : RES :=
  self.mk 1 [3] 1 1 1 1 5 1 true true 1 1 [5 * 5 + 0] 4 (3 * 3 + 0) 3.

Definition walk_local_sampled2 : local.t :=
  local.mk [5] walk_y2 (5 * 5 + 0)
           [3 * 3 + 0; walk_y1; 5 * 5 + 0; walk_y2].

Definition walk_adapted2 : RES :=
  self.mk 1 [3] sigma_grown 1 1 1 5 1 true true 1 2 [5 * 5 + 0]
          4 (3 * 3 + 0) 3.

Definition walk_local_second : local.t :=
  local.mk walk_x2 walk_y2 walk_y2
           [3 * 3 + 0; walk_y1; 5 * 5 + 0; walk_y2].

Definition walk_second : RES :=
  self.mk 1 [3] sigma_grown 1 1 1 5 1 true true 1 2
          [5 * 5 + 0; 3 * 3 + 0] 4 (3 * 3 + 0) 3.

(** ** Settings *)

(** The attributes that nothing in [res.py] assigns once the object is
    built. *)
Definition same_settings (st st' : RES) : Prop :=
  self.ndim_problem st' = self.ndim_problem st /\
  self.mean st' = self.mean st /\
  self.eta_sigma st' = self.eta_sigma st /\
  self._sigma_bak st' = self._sigma_bak st /\
  self.sigma_threshold st' = self.sigma_threshold st /\
  self.stagnation st' = self.stagnation st /\
  self.fitness_diff st' = self.fitness_diff st /\
  self.is_restart st' = self.is_restart st /\
  self.record_fitness st' = self.record_fitness st.

(** * Properties *)

(** ** Comparisons and powers *)

Lemma ltR_spec (a b : R) : ltR a b = true <-> a < b.
Proof.
  unfold ltR. destruct (Rlt_dec a b); split; intros; try easy.
Qed.

Lemma ltR_true (a b : R) : a < b -> ltR a b = true.
Proof. apply ltR_spec. Qed.

Lemma ltR_false (a b : R) : ~ a < b -> ltR a b = false.
Proof.
  intros H. destruct (ltR a b) eqn:E; [|reflexivity].
  apply ltR_spec in E. contradiction.
Qed.

Lemma ltR_false_iff (a b : R) : ltR a b = false <-> ~ a < b.
Proof.
  split; [|apply ltR_false].
  intros E H. apply ltR_spec in H. congruence.
Qed.

(** [np.power(np.exp(a), e)] is [exp(e * a)]. *)
Lemma Rpower_exp (a e : R) : Rpower (exp a) e = exp (e * a).
Proof. unfold Rpower. now rewrite ln_exp. Qed.

(** Decides the comparisons of concrete floats met while a sample run is
    evaluated. *)
Ltac float_cmp :=
  repeat match goal with
  | |- context [ltR ?a ?b] =>
      first [ rewrite (ltR_true a b) by lra
            | rewrite (ltR_false a b) by lra ]
  end.

Ltac evaluate := repeat (cbn; float_cmp).

(** ** Python's indexing *)

Lemma getitem_last {A : Type} (l : list A) (a : A) :
  getitem (l ++ [a]) (-1) = Return a.
Proof.
  unfold getitem. rewrite length_app. cbn [length].
  replace (-1 <? 0)%Z with true by reflexivity.
  assert (H0 : (0 <=? -1 + Z.of_nat (length l + 1))%Z = true)
    by (apply Z.leb_le; lia).
  assert (H1 : (-1 + Z.of_nat (length l + 1) <? Z.of_nat (length l + 1))%Z = true)
    by (apply Z.ltb_lt; lia).
  rewrite H0, H1. cbn [andb].
  replace (Z.to_nat (-1 + Z.of_nat (length l + 1))) with (length l) by lia.
  rewrite nth_error_app2 by lia. now rewrite Nat.sub_diag.
Qed.

(** Within a list that has as many entries as the window, indexing from
    the end by a window that is not negative raises nothing. *)
Lemma getitem_window {A : Type} (l : list A) (w : Z) :
  l <> [] -> (0 <= w)%Z -> (w <= len l)%Z ->
  exists a, getitem l (- w) = Return a.
Proof.
  intros Hne H0 Hw. unfold len in Hw. unfold getitem.
  assert (Hlen : (0 < length l)%nat) by (destruct l; [congruence | cbn; lia]).
  set (j := if (- w <? 0)%Z then (- w + Z.of_nat (length l))%Z else (- w)%Z).
  assert (Hj : (0 <= j < Z.of_nat (length l))%Z).
  { unfold j. destruct (- w <? 0)%Z eqn:E.
    - apply Z.ltb_lt in E. lia.
    - apply Z.ltb_ge in E. lia. }
  replace (0 <=? j)%Z with true by (symmetry; apply Z.leb_le; lia).
  replace (j <? Z.of_nat (length l))%Z with true
    by (symmetry; apply Z.ltb_lt; lia).
  cbn [andb].
  destruct (nth_error l (Z.to_nat j)) eqn:E; [eauto|].
  apply nth_error_None in E. lia.
Qed.

(** ** What each step touches *)

Lemma same_settings_refl (st : RES) : same_settings st st.
Proof. repeat split. Qed.

Lemma same_settings_trans (a b c : RES) :
  same_settings a b -> same_settings b c -> same_settings a c.
Proof.
  unfold same_settings. intros H1 H2.
  decompose [and] H1. decompose [and] H2.
  repeat split; congruence.
Qed.

Section Properties.

Context {base : Collaborator}.

Implicit Types (st : RES) (l : local.t) (args : option Args).

Lemma evaluate_fitness_spec st x args y st1 :
  _evaluate_fitness st x args = (y, st1) ->
  y = fitness_function x args /\
  same_settings st st1 /\
  self.sigma st1 = self.sigma st /\
  self.n_restart st1 = self.n_restart st /\
  self._n_generations st1 = self._n_generations st /\
  self._fitness_list st1 = self._fitness_list st /\
  self.rng_optimization st1 = self.rng_optimization st /\
  self.n_function_evaluations st1 = S (self.n_function_evaluations st) /\
  self.best_so_far_y st1 <= self.best_so_far_y st.
Proof.
  unfold _evaluate_fitness. intros H.
  destruct (ltR _ _) eqn:E; inversion H; subst; cbn;
    repeat split; try reflexivity.
  all: try (apply ltR_spec in E; cbn in E); lra.
Qed.

Lemma initialize_spec st args b m y best st1 :
  initialize st args b = ((m, y, best), st1) ->
  y = fitness_function m args /\
  best = y /\
  same_settings st st1 /\
  self.sigma st1 = self.sigma st /\
  self.n_restart st1 = self.n_restart st /\
  self._n_generations st1 = self._n_generations st /\
  self._fitness_list st1 = self._fitness_list st /\
  self.n_function_evaluations st1 = S (self.n_function_evaluations st).
Proof.
  unfold initialize. intros H.
  destruct (_initialize_mean st b) as [m0 st0] eqn:Em.
  destruct (_evaluate_fitness st0 m0 args) as [y0 st2] eqn:Ee.
  inversion H; subst; clear H.
  apply evaluate_fitness_spec in Ee.
  destruct Ee as (Hy & Hs & Hsig & Hr & Hg & Hf & _ & Hn & _).
  assert (H0 : same_settings st st0 /\ self.sigma st0 = self.sigma st /\
               self.n_restart st0 = self.n_restart st /\
               self._n_generations st0 = self._n_generations st /\
               self._fitness_list st0 = self._fitness_list st /\
               self.n_function_evaluations st0 = self.n_function_evaluations st).
  { unfold _initialize_mean in Em.
    destruct b; inversion Em; subst; cbn; repeat split. }
  destruct H0 as (Hs0 & Hsig0 & Hr0 & Hg0 & Hf0 & Hn0).
  repeat split; try congruence.
  all: try (eapply same_settings_trans; eassumption).
Qed.

(** Lines 148-150. *)
Lemma sample_spec st args l x st1 l1 :
  sample st args l = (x, st1, l1) ->
  x = axpy (local.mean l) (self.sigma st)
        (standard_normal (self.rng_optimization st) (self.ndim_problem st)) /\
  local.y l1 = fitness_function x args /\
  local.mean l1 = local.mean l /\
  local.best_so_far_y l1 = local.best_so_far_y l /\
  local.fitness l1 =
    (if self.record_fitness st
     then local.fitness l ++ [local.y l1] else local.fitness l) /\
  same_settings st st1 /\
  self.sigma st1 = self.sigma st /\
  self.n_restart st1 = self.n_restart st /\
  self._n_generations st1 = self._n_generations st /\
  self._fitness_list st1 = self._fitness_list st /\
  self.n_function_evaluations st1 = S (self.n_function_evaluations st).
Proof.
  unfold sample, iterate. intros H.
  destruct (_evaluate_fitness _ _ args) as [y0 st2] eqn:Ee.
  inversion H; subst; clear H.
  apply evaluate_fitness_spec in Ee. cbn in Ee.
  destruct Ee as (Hy & Hs & Hsig & Hr & Hg & Hf & _ & Hn & _).
  assert (Hrec : self.record_fitness st1 = self.record_fitness st)
    by (destruct Hs as (_ & _ & _ & _ & _ & _ & _ & _ & Hrec); exact Hrec).
  cbn. rewrite Hrec. repeat split; try assumption.
  all: destruct Hs as (? & ? & ? & ? & ? & ? & ? & ? & ?); assumption.
Qed.

(** Lines 153-157. *)
Lemma adapt_spec st x l st2 l2 :
  adapt st x l = (st2, l2) ->
  self.sigma st2 =
    self.sigma st *
    Rpower (exp (float_of_bool (ltR (local.y l) (local.best_so_far_y l)) - 1 / 5))
           (self.eta_sigma st) /\
  l2 = (if ltR (local.y l) (local.best_so_far_y l)
        then local.mk x (local.y l) (local.y l) (local.fitness l) else l) /\
  same_settings st st2 /\
  self.n_restart st2 = self.n_restart st /\
  self._n_generations st2 = S (self._n_generations st) /\
  self._fitness_list st2 = self._fitness_list st /\
  self.best_so_far_y st2 = self.best_so_far_y st /\
  self.n_function_evaluations st2 = self.n_function_evaluations st.
Proof.
  unfold adapt, _print_verbose_info. intros H.
  inversion H; subst; clear H. cbn. repeat split.
Qed.

(** Lines 129-141, by the verdicts of the two detectors. *)
Lemma restart_initialize_quiet st args l :
  is_restart_1 (appended st) = false ->
  is_restart_2 (appended st) = Return false ->
  restart_initialize st args l = Return (appended st, l).
Proof.
  intros H1 H2. unfold restart_initialize. fold (appended st).
  rewrite H2. cbn [bind]. rewrite H1. reflexivity.
Qed.

Lemma restart_initialize_raises st args l e :
  is_restart_2 (appended st) = Raise e ->
  restart_initialize st args l = Raise e.
Proof.
  intros H2. unfold restart_initialize. fold (appended st).
  rewrite H2. reflexivity.
Qed.

Lemma restart_initialize_fires st args l b2 :
  is_restart_2 (appended st) = Return b2 ->
  (is_restart_1 (appended st) || b2)%bool = true ->
  exists m y st_i,
    initialize
      (self.set_sigma (self._sigma_bak st)
         (self.set_n_restart (S (self.n_restart st)) (appended st)))
      args true = ((m, y, y), st_i) /\
    restart_initialize st args l =
      Return (self.set__fitness_list [y] st_i,
              local.mk m y y (local.fitness l ++ [y])).
Proof.
  intros H2 H. unfold restart_initialize. fold (appended st).
  rewrite H2. cbn [bind]. rewrite H.
  change (self._sigma_bak
            (self.set_n_restart (S (self.n_restart (appended st))) (appended st)))
    with (self._sigma_bak st).
  change (self.n_restart (appended st)) with (self.n_restart st).
  destruct (initialize _ args true) as [[[m y] b] st_i] eqn:Ei.
  pose proof (initialize_spec _ _ _ _ _ _ _ Ei) as (_ & Hb & _).
  subst b. exists m, y, st_i. split; reflexivity.
Qed.

(** A call that returns either fired a restart or left the counter alone,
    and which of the two is what the detectors said. *)
Lemma restart_initialize_inv st args l st' l' :
  restart_initialize st args l = Return (st', l') ->
  (is_restart_1 (appended st) = false /\
   is_restart_2 (appended st) = Return false /\
   st' = appended st /\ l' = l) \/
  (exists b2 m y st_i,
     is_restart_2 (appended st) = Return b2 /\
     (is_restart_1 (appended st) || b2)%bool = true /\
     initialize
       (self.set_sigma (self._sigma_bak st)
          (self.set_n_restart (S (self.n_restart st)) (appended st)))
       args true = ((m, y, y), st_i) /\
     st' = self.set__fitness_list [y] st_i /\
     l' = local.mk m y y (local.fitness l ++ [y])).
Proof.
  intros H.
  destruct (is_restart_2 (appended st)) as [b2|e] eqn:E2.
  - destruct (is_restart_1 (appended st) || b2)%bool eqn:E.
    + right.
      destruct (restart_initialize_fires st args l b2 E2 E)
        as (m & y & st_i & Hi & Hr).
      rewrite Hr in H. inversion H; subst.
      exists b2, m, y, st_i. repeat split; assumption.
    + left. apply orb_false_iff in E. destruct E as [E1 Eb]. subst b2.
      rewrite (restart_initialize_quiet st args l E1 E2) in H.
      inversion H; subst. repeat split; assumption.
  - rewrite (restart_initialize_raises st args l e E2) in H. discriminate.
Qed.

(** The detectors as booleans and in the spec's words. *)
Lemma is_restart_1_spec st : is_restart_1 st = true <-> DetectorA st.
Proof. unfold is_restart_1, DetectorA. apply ltR_spec. Qed.

Lemma is_restart_2_spec st : is_restart_2 st = Return true <-> DetectorB st.
Proof.
  unfold is_restart_2, DetectorB. split.
  - destruct (Z.leb_spec (self.stagnation st) (len (self._fitness_list st)))
      as [Hle|Hlt]; [|discriminate].
    destruct (getitem _ (- self.stagnation st)) as [a|] eqn:Ea; [|discriminate].
    destruct (getitem _ (-1)) as [b|] eqn:Eb; [|discriminate].
    cbn [bind]. intros H. inversion H as [Hlt].
    split; [exact Hle|]. exists a, b. apply ltR_spec in Hlt. auto.
  - intros (Hle & a & b & Ea & Eb & Hlt).
    apply Z.leb_le in Hle. rewrite Hle, Ea, Eb. cbn [bind].
    now rewrite ltR_true.
Qed.

(** With a window that is not negative the second detector raises
    nothing once line 130 has appended. *)
Lemma is_restart_2_returns st :
  (0 <= self.stagnation st)%Z ->
  exists b2, is_restart_2 (appended st) = Return b2.
Proof.
  intros Hw. unfold is_restart_2.
  destruct (Z.leb_spec (self.stagnation (appended st))
                       (len (self._fitness_list (appended st))))
    as [Hle|Hlt]; [|eauto].
  cbn [appended self._fitness_list self.set__fitness_list] in *.
  destruct (getitem_window (self._fitness_list st ++ [self.best_so_far_y st])
              (self.stagnation st)) as [a Ha]; try assumption.
  { destruct (self._fitness_list st); discriminate. }
  change (self.stagnation (appended st)) with (self.stagnation st).
  change (self._fitness_list (appended st))
    with (self._fitness_list st ++ [self.best_so_far_y st]).
  rewrite Ha, getitem_last. cbn [bind]. eauto.
Qed.

(** Lines 148-159 by cases. *)
Lemma generation_unfold args st l x st1 l1 st2 l2 :
  sample st args l = (x, st1, l1) ->
  adapt st1 x l1 = (st2, l2) ->
  generation args st l =
    if _check_terminations st1 then Break st1 l1
    else if self.is_restart st then
      match restart_initialize st2 args l2 with
      | Return (st', l') => Continue st' l'
      | Raise e => Raised e
      end
    else Continue st2 l2.
Proof.
  intros Hs Ha. unfold generation. rewrite Hs.
  destruct (_check_terminations st1); [reflexivity|].
  rewrite Ha.
  apply sample_spec in Hs. apply adapt_spec in Ha.
  destruct Hs as (_ & _ & _ & _ & _ & Hs & _).
  destruct Ha as (_ & _ & Ha & _).
  destruct Hs as (_ & _ & _ & _ & _ & _ & _ & Hs & _).
  destruct Ha as (_ & _ & _ & _ & _ & _ & _ & Ha & _).
  rewrite Ha, Hs. reflexivity.
Qed.

(** A generation leaves the loop only on the verdict of the check, and
    then with the object and the variables as the sampling left them. *)
Lemma generation_break_inv args st l x st1 l1 st' l' :
  sample st args l = (x, st1, l1) ->
  generation args st l = Break st' l' ->
  _check_terminations st1 = true /\ st' = st1 /\ l' = l1.
Proof.
  intros Hs Hg.
  destruct (adapt st1 x l1) as [st2 l2] eqn:Ha.
  rewrite (generation_unfold _ _ _ _ _ _ _ _ Hs Ha) in Hg.
  destruct (_check_terminations st1).
  - inversion Hg; subst; auto.
  - destruct (self.is_restart st); [|discriminate].
    destruct (restart_initialize st2 args l2) as [[? ?]|?]; discriminate.
Qed.

(** A generation that goes on either left the restart counter alone, and
    then ends in the state that line 157 (or line 130) left, or fired a
    restart. *)
Lemma generation_continue_inv args st l x st1 l1 st2 l2 st' l' :
  sample st args l = (x, st1, l1) ->
  adapt st1 x l1 = (st2, l2) ->
  generation args st l = Continue st' l' ->
  _check_terminations st1 = false /\
  ((self.is_restart st = false /\ st' = st2 /\ l' = l2) \/
   (self.is_restart st = true /\
    restart_initialize st2 args l2 = Return (st', l'))).
Proof.
  intros Hs Ha Hg. rewrite (generation_unfold _ _ _ _ _ _ _ _ Hs Ha) in Hg.
  destruct (_check_terminations st1); [discriminate|]. split; [reflexivity|].
  destruct (self.is_restart st).
  - right. split; [reflexivity|].
    destruct (restart_initialize st2 args l2) as [[st3 l3]|e];
      inversion Hg; subst; reflexivity.
  - left. inversion Hg; subst. auto.
Qed.

Lemma generation_continue_cases args st l x st1 l1 st2 l2 st' l' :
  sample st args l = (x, st1, l1) ->
  adapt st1 x l1 = (st2, l2) ->
  generation args st l = Continue st' l' ->
  (self.n_restart st' = self.n_restart st /\
   l' = l2 /\
   self.sigma st' = self.sigma st2 /\
   self.n_function_evaluations st' = S (self.n_function_evaluations st) /\
   same_settings st st' /\
   self._n_generations st' = S (self._n_generations st) /\
   (self.is_restart st = false /\ st' = st2 \/
    self.is_restart st = true /\ st' = appended st2 /\
    is_restart_1 (appended st2) = false /\
    is_restart_2 (appended st2) = Return false)) \/
  (restart_fired st st' /\
   self.is_restart st = true /\
   same_settings st st' /\
   self._n_generations st' = S (self._n_generations st) /\
   self.n_function_evaluations st' = S (S (self.n_function_evaluations st)) /\
   exists b2 m y st_i,
     is_restart_2 (appended st2) = Return b2 /\
     (is_restart_1 (appended st2) || b2)%bool = true /\
     initialize
       (self.set_sigma (self._sigma_bak st2)
          (self.set_n_restart (S (self.n_restart st2)) (appended st2)))
       args true = ((m, y, y), st_i) /\
     st' = self.set__fitness_list [y] st_i /\
     l' = local.mk m y y (local.fitness l2 ++ [y])).
Proof.
  intros Hs Ha Hg.
  destruct (generation_continue_inv _ _ _ _ _ _ _ _ _ _ Hs Ha Hg) as (_ & Hc).
  apply sample_spec in Hs. apply adapt_spec in Ha.
  destruct Hs as (_ & _ & _ & _ & _ & Hs1 & Hsig1 & Hr1 & Hg1 & Hf1 & Hn1).
  destruct Ha as (_ & _ & Hs2 & Hr2 & Hg2 & Hf2 & Hb2 & Hn2).
  pose proof (same_settings_trans _ _ _ Hs1 Hs2) as Hs12.
  destruct Hc as [(Hgate & -> & ->) | (Hgate & Hri)].
  - left. repeat split; try congruence; try apply Hs12. left. auto.
  - apply restart_initialize_inv in Hri.
    destruct Hri as [(H1 & H2 & -> & ->) |
                     (b2 & m & y & st_i & H2 & H12 & Hi & -> & ->)].
    + left. cbn. repeat split; try congruence; try apply Hs12.
      right. auto.
    + right. pose proof (initialize_spec _ _ _ _ _ _ _ Hi)
        as (_ & _ & Hsi & Hsigi & Hri & Hgi & Hfi & Hni).
      cbn in Hsigi, Hri, Hgi, Hfi, Hni.
      assert (Hset : same_settings st st_i).
      { eapply same_settings_trans; [exact Hs12|].
        eapply same_settings_trans; [|exact Hsi]. repeat split. }
      unfold restart_fired. cbn.
      repeat split; try congruence; try apply Hset.
      exists b2, m, y, st_i. repeat split; assumption.
Qed.

(** Line 144-146. *)
Lemma loop_entry_spec st0 args st l :
  loop_entry st0 args = (st, l) ->
  same_settings st0 st /\
  self.sigma st = self.sigma st0 /\
  self.n_restart st = self.n_restart st0 /\
  self._n_generations st = self._n_generations st0 /\
  self.n_function_evaluations st = S (self.n_function_evaluations st0) /\
  local.mean l = self.mean st0 /\
  local.y l = fitness_function (self.mean st0) args /\
  local.best_so_far_y l = local.y l /\
  local.fitness l = [local.y l].
Proof.
  unfold loop_entry. intros H.
  destruct (initialize st0 args false) as [[[m y] b] st1] eqn:Ei.
  inversion H; subst; clear H.
  pose proof (initialize_spec _ _ _ _ _ _ _ Ei)
    as (Hy & Hb & Hs & Hsig & Hr & Hg & _ & Hn).
  unfold initialize, _initialize_mean in Ei.
  destruct (_evaluate_fitness st0 (self.mean st0) args) as [y1 st2] eqn:Ee.
  inversion Ei; subst. cbn.
  repeat split; try assumption; try reflexivity; apply Hs.
Qed.

(** What holds at every head of the loop. *)
Lemma loop_head_invariant args st0 st l :
  loop_head args st0 st l ->
  same_settings st0 st /\
  (self.n_function_evaluations st + self._n_generations st0
     + self.n_restart st0 =
   S (self.n_function_evaluations st0) + self._n_generations st
     + self.n_restart st)%nat /\
  (self.is_restart st0 = false -> self.n_restart st = self.n_restart st0).
Proof.
  induction 1 as [st l He | st l st' l' Hh IH Hg].
  - apply loop_entry_spec in He.
    destruct He as (Hs & _ & Hr & Hg & Hn & _).
    repeat split; try apply Hs. + lia. + intros _. exact Hr.
  - destruct IH as (Hs & Hcount & Hoff).
    destruct (sample st args l) as [[x st1] l1] eqn:Es.
    destruct (adapt st1 x l1) as [st2 l2] eqn:Ea.
    destruct (generation_continue_cases _ _ _ _ _ _ _ _ _ _ Es Ea Hg)
      as [(Hr & _ & _ & Hn & Hs' & Hgen & _) |
          (Hf & Hgate & Hs' & Hgen & Hn & _)].
    + split; [eapply same_settings_trans; eassumption|].
      split; [lia|]. intros Hg0. rewrite Hr. auto.
    + unfold restart_fired in Hf.
      split; [eapply same_settings_trans; eassumption|].
      split; [lia|]. intros Hg0.
      destruct Hs as (_ & _ & _ & _ & _ & _ & _ & Hgs & _). congruence.
Qed.

(** The restart gate is the same at every head of the loop. *)
Lemma loop_head_gate args st0 st l :
  loop_head args st0 st l -> self.is_restart st = self.is_restart st0.
Proof.
  intros Hh. apply loop_head_invariant in Hh.
  destruct Hh as ((_ & _ & _ & _ & _ & _ & _ & Hgate & _) & _). exact Hgate.
Qed.

(** The object's own [best_so_far_y], kept by the evaluator, is never above
    the fitness just evaluated nor above its former value. *)
Lemma evaluate_fitness_best st x args y st1 :
  _evaluate_fitness st x args = (y, st1) ->
  self.best_so_far_y st1 <= y /\
  self.best_so_far_y st1 <= self.best_so_far_y st.
Proof.
  unfold _evaluate_fitness. intros H.
  destruct (ltR _ _) eqn:E; inversion H; subst; cbn in *.
  - apply ltR_spec in E. lra.
  - apply ltR_false_iff in E. lra.
Qed.

Lemma initialize_best st args b m y best st1 :
  initialize st args b = ((m, y, best), st1) ->
  self.best_so_far_y st1 <= best.
Proof.
  unfold initialize. intros H.
  destruct (_initialize_mean st b) as [m0 st0].
  destruct (_evaluate_fitness st0 m0 args) as [y0 st2] eqn:Ee.
  inversion H; subst. apply evaluate_fitness_best in Ee. tauto.
Qed.

Lemma sample_best st args l x st1 l1 :
  sample st args l = (x, st1, l1) ->
  self.best_so_far_y st1 <= local.y l1 /\
  self.best_so_far_y st1 <= self.best_so_far_y st.
Proof.
  unfold sample, iterate. intros H.
  destruct (_evaluate_fitness _ _ args) as [y0 st2] eqn:Ee.
  inversion H; subst. apply evaluate_fitness_best in Ee. exact Ee.
Qed.

(** At every head of the loop the object's [best_so_far_y] is at most the
    incumbent's. *)
Lemma object_best_at_most_incumbent args st0 st l :
  loop_head args st0 st l ->
  self.best_so_far_y st <= local.best_so_far_y l.
Proof.
  induction 1 as [st l He | st l st' l' Hh IH Hg].
  - unfold loop_entry in He.
    destruct (initialize st0 args false) as [[[m y] b] st1] eqn:Ei.
    inversion He; subst. cbn. eapply initialize_best; eassumption.
  - destruct (sample st args l) as [[x st1] l1] eqn:Hs.
    destruct (adapt st1 x l1) as [st2 l2] eqn:Ha.
    pose proof (sample_best _ _ _ _ _ _ Hs) as (Hy & Hb).
    pose proof (sample_spec _ _ _ _ _ _ Hs) as (_ & _ & _ & Hb1 & _).
    pose proof (adapt_spec _ _ _ _ _ Ha)
      as (_ & Hl2 & _ & _ & _ & _ & Hb2 & _).
    assert (H2 : self.best_so_far_y st2 <= local.best_so_far_y l2).
    { rewrite Hb2. subst l2. destruct (ltR _ _); cbn; lra. }
    destruct (generation_continue_cases _ _ _ _ _ _ _ _ _ _ Hs Ha Hg)
      as [(_ & -> & _ & _ & _ & _ & [(_ & ->) | (_ & -> & _)]) |
          (_ & _ & _ & _ & _ & b2 & m & y & st_i & _ & _ & Hi & -> & ->)].
    + exact H2.
    + exact H2.
    + cbn. eapply initialize_best; eassumption.
Qed.

(** With a stagnation window that is not negative no generation raises:
    it leaves the loop or goes on. *)
Lemma generation_never_raises args st l e :
  (0 <= self.stagnation st)%Z ->
  generation args st l <> Raised e.
Proof.
  intros Hw.
  destruct (sample st args l) as [[x st1] l1] eqn:Hs.
  destruct (adapt st1 x l1) as [st2 l2] eqn:Ha.
  rewrite (generation_unfold _ _ _ _ _ _ _ _ Hs Ha).
  destruct (_check_terminations st1); [discriminate|].
  destruct (self.is_restart st); [|discriminate].
  pose proof (sample_spec _ _ _ _ _ _ Hs)
    as (_ & _ & _ & _ & _ & (_ & _ & _ & _ & _ & Hw1 & _) & _).
  pose proof (adapt_spec _ _ _ _ _ Ha)
    as (_ & _ & (_ & _ & _ & _ & _ & Hw2 & _) & _).
  destruct (is_restart_2_returns st2) as [b2 H2]; [congruence|].
  destruct (is_restart_1 (appended st2) || b2)%bool eqn:E.
  - destruct (restart_initialize_fires st2 args l2 b2 H2 E)
      as (m & y & st_i & _ & Hr).
    rewrite Hr. discriminate.
  - apply orb_false_iff in E. destruct E as [E1 ->].
    rewrite (restart_initialize_quiet st2 args l2 E1 H2). discriminate.
Qed.

(** ** The step-size rule *)

(** C1. In every generation that passes the termination check, line 153
    multiplies sigma once by [exp(indicator(y < best_so_far_y) - 1/5)] to
    the power [eta_sigma]: by [exp(0.8 * eta_sigma)] when the offspring's
    fitness [y] is strictly below [best_so_far_y], by
    [exp(-0.2 * eta_sigma)] otherwise. The object [st2] that carries this
    sigma is the one the rest of the generation works on: it is the
    generation's result when the restart gate is closed, it is what
    [restart_initialize] is called on when the gate is open, and its sigma
    is the generation's final sigma unless a restart fires. *)
Theorem sigma_update_one_fifth_rule args st l x st1 l1 st2 l2 st' l' :
  sample st args l = (x, st1, l1) ->
  adapt st1 x l1 = (st2, l2) ->
  generation args st l = Continue st' l' ->
  let y := local.y l1 in
  let best_so_far_y := local.best_so_far_y l in
  self.sigma st2 =
    self.sigma st *
    Rpower (exp (float_of_bool (ltR y best_so_far_y) - 1 / 5))
           (self.eta_sigma st) /\
  (y < best_so_far_y ->
   self.sigma st2 = self.sigma st * exp (0.8 * self.eta_sigma st)) /\
  (~ y < best_so_far_y ->
   self.sigma st2 = self.sigma st * exp (-0.2 * self.eta_sigma st)) /\
  (self.is_restart st = false -> st' = st2) /\
  (self.is_restart st = true ->
   restart_initialize st2 args l2 = Return (st', l')) /\
  (~ restart_fired st st' -> self.sigma st' = self.sigma st2).
Proof.
  intros Hs Ha Hg y best_so_far_y.
  pose proof (generation_continue_inv _ _ _ _ _ _ _ _ _ _ Hs Ha Hg)
    as (_ & Hinv).
  pose proof (generation_continue_cases _ _ _ _ _ _ _ _ _ _ Hs Ha Hg)
    as Hcases.
  pose proof (sample_spec _ _ _ _ _ _ Hs)
    as (_ & _ & _ & Hb1 & _ & Hset & Hsig1 & _).
  pose proof (adapt_spec _ _ _ _ _ Ha) as (Hsig2 & _).
  assert (Heta : self.eta_sigma st1 = self.eta_sigma st)
    by (destruct Hset as (_ & _ & Heta & _); exact Heta).
  rewrite Hsig1, Hb1, Heta in Hsig2. fold y best_so_far_y in Hsig2.
  split; [exact Hsig2|].
  split; [|split; [|split; [|split]]].
  - intros Hlt. rewrite Hsig2, (ltR_true _ _ Hlt), Rpower_exp.
    cbn [float_of_bool]. f_equal. f_equal. lra.
  - intros Hge. rewrite Hsig2, (ltR_false _ _ Hge), Rpower_exp.
    cbn [float_of_bool]. f_equal. f_equal. lra.
  - intros Hgate. destruct Hinv as [(_ & E & _) | (Hgate' & _)];
      [exact E | congruence].
  - intros Hgate. destruct Hinv as [(Hgate' & _) | (_ & E)];
      [congruence | exact E].
  - intros Hnot. destruct Hcases as [(_ & _ & E & _) | (Hf & _)];
      [exact E | contradiction].
Qed.

(** ** Selection *)

(** C2, as the code has it. In every generation that passes the
    termination check, lines 156-157 replace the incumbent if and only if
    the offspring's fitness [y] is strictly below [best_so_far_y]: then
    [mean] becomes [x] and [best_so_far_y] becomes [y]; otherwise, a tie
    included, both stay and [x] is dropped. These are the [mean] and
    [best_so_far_y] the generation ends with unless a restart fires in it;
    when one fires, both are set anew by [initialize], run with the restart
    flag, to the restart point and its fitness. The generation that leaves
    the loop keeps its incumbent whatever [y] is. *)
Theorem incumbent_replaced_iff_strictly_better args st l x st1 l1 :
  sample st args l = (x, st1, l1) ->
  let y := local.y l1 in
  let best_so_far_y := local.best_so_far_y l in
  y = fitness_function x args /\
  (forall st' l',
     generation args st l = Continue st' l' ->
     ~ restart_fired st st' ->
     (y < best_so_far_y ->
      local.mean l' = x /\ local.best_so_far_y l' = y) /\
     (~ y < best_so_far_y ->
      local.mean l' = local.mean l /\
      local.best_so_far_y l' = best_so_far_y) /\
     (y = best_so_far_y ->
      local.mean l' = local.mean l /\
      local.best_so_far_y l' = best_so_far_y)) /\
  (forall st' l',
     generation args st l = Continue st' l' ->
     restart_fired st st' ->
     local.best_so_far_y l' = fitness_function (local.mean l') args /\
     exists st_r st_i,
       initialize st_r args true
       = ((local.mean l', local.y l', local.best_so_far_y l'), st_i)) /\
  (forall st' l',
     generation args st l = Break st' l' ->
     local.mean l' = local.mean l /\
     local.best_so_far_y l' = best_so_far_y).
Proof.
  intros Hs y best_so_far_y.
  destruct (adapt st1 x l1) as [st2 l2] eqn:Ha.
  pose proof (sample_spec _ _ _ _ _ _ Hs)
    as (_ & Hy & Hm1 & Hb1 & _).
  pose proof (adapt_spec _ _ _ _ _ Ha) as (_ & Hl2 & _).
  rewrite Hb1 in Hl2. fold y best_so_far_y in Hl2.
  assert (Hkeep : ~ y < best_so_far_y ->
                  local.mean l2 = local.mean l /\
                  local.best_so_far_y l2 = best_so_far_y).
  { intros Hge. rewrite (ltR_false _ _ Hge) in Hl2. subst l2. auto. }
  assert (Htake : y < best_so_far_y ->
                  local.mean l2 = x /\ local.best_so_far_y l2 = y).
  { intros Hlt. rewrite (ltR_true _ _ Hlt) in Hl2. subst l2. auto. }
  split; [exact Hy|]. split; [|split].
  - intros st' l' Hg Hnot.
    destruct (generation_continue_cases _ _ _ _ _ _ _ _ _ _ Hs Ha Hg)
      as [(_ & -> & _) | (Hf & _)]; [|contradiction].
    split; [exact Htake|]. split; [exact Hkeep|].
    intros Heq. apply Hkeep. lra.
  - intros st' l' Hg Hf.
    destruct (generation_continue_cases _ _ _ _ _ _ _ _ _ _ Hs Ha Hg)
      as [(Hr & _) |
          (_ & _ & _ & _ & _ & b2 & m & y' & st_i & _ & _ & Hi & _ & ->)].
    { unfold restart_fired in Hf. lia. }
    cbn. split.
    + apply initialize_spec in Hi. tauto.
    + eexists _, st_i. exact Hi.
  - intros st' l' Hg.
    destruct (generation_break_inv _ _ _ _ _ _ _ _ Hs Hg) as (_ & _ & ->).
    auto.
Qed.

(** ** The terminating generation *)

(** C8. The termination check is made on the object as the sampling left
    it, before line 153 touches sigma and before lines 156-157 touch the
    incumbent: its verdict alone decides whether the loop is left. In the
    generation that leaves the loop the offspring's fitness has been
    appended to the trace when [record_fitness] is set, and sigma, [mean]
    and [best_so_far_y] are as the generation found them. *)
Theorem termination_check_before_updates args st l x st1 l1 :
  sample st args l = (x, st1, l1) ->
  self.sigma st1 = self.sigma st /\
  local.mean l1 = local.mean l /\
  local.best_so_far_y l1 = local.best_so_far_y l /\
  (_check_terminations st1 = true <-> generation args st l = Break st1 l1) /\
  (forall st' l',
     generation args st l = Break st' l' ->
     _check_terminations st1 = true /\
     self.sigma st' = self.sigma st /\
     self._n_generations st' = self._n_generations st /\
     local.mean l' = local.mean l /\
     local.best_so_far_y l' = local.best_so_far_y l /\
     local.fitness l' =
       (if self.record_fitness st
        then local.fitness l ++ [fitness_function x args]
        else local.fitness l)).
Proof.
  intros Hs.
  destruct (adapt st1 x l1) as [st2 l2] eqn:Ha.
  pose proof (generation_unfold _ _ _ _ _ _ _ _ Hs Ha) as Hgen.
  pose proof (sample_spec _ _ _ _ _ _ Hs)
    as (_ & Hy & Hm1 & Hb1 & Hf1 & _ & Hsig1 & _ & Hg1 & _).
  rewrite Hy in Hf1.
  assert (Hbreak : forall st' l', generation args st l = Break st' l' ->
                                  _check_terminations st1 = true /\
                                  st' = st1 /\ l' = l1)
    by (intros st' l'; apply (generation_break_inv _ _ _ _ _ _ _ _ Hs)).
  repeat split; try assumption.
  - intros Hc. rewrite Hgen, Hc. reflexivity.
  - intros Hg. apply Hbreak in Hg. tauto.
  - apply Hbreak in H. tauto.
  - apply Hbreak in H. destruct H as (_ & -> & _). exact Hsig1.
  - apply Hbreak in H. destruct H as (_ & -> & _). exact Hg1.
  - apply Hbreak in H. destruct H as (_ & _ & ->). exact Hm1.
  - apply Hbreak in H. destruct H as (_ & _ & ->). exact Hb1.
  - apply Hbreak in H. destruct H as (_ & _ & ->). exact Hf1.
Qed.

(** ** Counting evaluations *)

(** C3, as the code has it. At every head of the loop of a run that
    started with its counters at zero, the evaluation count is one plus
    the number of completed generations plus the number of restarts fired:
    one evaluation at the start, one per generation, one per restart. It
    is one plus the number of generations when the restart gate is
    closed. *)
Theorem evaluations_count_generations_and_restarts args st0 st l :
  ES_initialized st0 ->
  loop_head args st0 st l ->
  self.n_function_evaluations st =
    (1 + self._n_generations st + self.n_restart st)%nat /\
  (self.is_restart st0 = false ->
   self.n_function_evaluations st = (1 + self._n_generations st)%nat).
Proof.
  intros (_ & Hr0 & Hg0 & Hn0) Hh.
  apply loop_head_invariant in Hh. destruct Hh as (_ & Hcount & Hoff).
  split; [lia|]. intros Hgate. specialize (Hoff Hgate). lia.
Qed.

(** ** The incumbent's fitness *)

(** C4, as the code has it. From one generation to the next
    [best_so_far_y] does not increase as long as no restart fires, hence
    never in a run whose restart gate is closed; a restart that fires sets
    it to the fitness of the restart point, whatever that is. *)
Theorem incumbent_never_worsens_unless_restarted args st l st' l' :
  generation args st l = Continue st' l' ->
  (~ restart_fired st st' ->
   local.best_so_far_y l' <= local.best_so_far_y l) /\
  (self.is_restart st = false ->
   local.best_so_far_y l' <= local.best_so_far_y l) /\
  (restart_fired st st' ->
   local.best_so_far_y l' = fitness_function (local.mean l') args).
Proof.
  intros Hg.
  destruct (sample st args l) as [[x st1] l1] eqn:Hs.
  destruct (adapt st1 x l1) as [st2 l2] eqn:Ha.
  pose proof (generation_continue_cases _ _ _ _ _ _ _ _ _ _ Hs Ha Hg)
    as Hcases.
  pose proof (sample_spec _ _ _ _ _ _ Hs) as (_ & _ & _ & Hb1 & _).
  pose proof (adapt_spec _ _ _ _ _ Ha) as (_ & Hl2 & _).
  assert (Hle : local.best_so_far_y l2 <= local.best_so_far_y l).
  { subst l2. destruct (ltR _ _) eqn:E; cbn.
    - apply ltR_spec in E. lra.
    - lra. }
  destruct Hcases as [(Hr & -> & _ & _ & _ & _ & _) |
                      (Hf & Hgate & _ & _ & _ & b2 & m & y & st_i &
                       _ & _ & Hi & -> & ->)].
  - repeat split; intros; try assumption.
    unfold restart_fired in *. lia.
  - split; [intros; contradiction|]. split; [congruence|].
    intros _. cbn. apply initialize_spec in Hi. tauto.
Qed.

(** ** The restart rule *)

(** C5, as the code has it. In a generation that passes the termination
    check and goes on, a restart fires if and only if the gate
    [is_restart] of the run is open and Detector A or Detector B is true,
    both read on the object as line 130 leaves it: sigma as line 153 set
    it, and the history with this generation's entry. Such a generation
    fires at most one restart. The generation that leaves the loop fires
    none, whatever the gate and the detectors. A generation that passes
    the check does go on when the stagnation window is not negative: its
    restart check then raises nothing. *)
Theorem restart_fires_iff_gate_and_detector
    args st l x st1 l1 st2 l2 :
  sample st args l = (x, st1, l1) ->
  adapt st1 x l1 = (st2, l2) ->
  (forall st' l',
     generation args st l = Continue st' l' ->
     (restart_fired st st' <->
      self.is_restart st = true /\
      (DetectorA (appended st2) \/ DetectorB (appended st2))) /\
     (~ restart_fired st st' -> self.n_restart st' = self.n_restart st)) /\
  (forall st' l',
     generation args st l = Break st' l' ->
     self.n_restart st' = self.n_restart st /\
     ~ restart_fired st st') /\
  ((0 <= self.stagnation st)%Z ->
   _check_terminations st1 = false ->
   exists st' l', generation args st l = Continue st' l').
Proof.
  intros Hs Ha. split; [|split].
  3: { intros Hw Hc.
       destruct (generation args st l) as [st' l' | st' l' | e] eqn:Hg.
       - destruct (generation_break_inv _ _ _ _ _ _ _ _ Hs Hg) as (Hc' & _).
         congruence.
       - eauto.
       - exfalso. exact (generation_never_raises _ _ _ _ Hw Hg). }
  - intros st' l' Hg.
    pose proof (generation_continue_cases _ _ _ _ _ _ _ _ _ _ Hs Ha Hg)
      as [(Hr & _ & _ & _ & _ & _ & Hq) |
          (Hf & Hgate & _ & _ & _ & b2 & m & y & st_i & H2 & H12 & _)].
    + assert (Hnf : ~ restart_fired st st')
        by (unfold restart_fired; lia).
      split; [|intros _; exact Hr].
      split; [intros; contradiction|].
      intros (Hgate & HAB).
      destruct Hq as [(Hoff & _) | (_ & _ & H1 & H2)]; [congruence|].
      destruct HAB as [HA | HB].
      * apply is_restart_1_spec in HA. congruence.
      * apply is_restart_2_spec in HB. congruence.
    + split; [|intros; contradiction].
      split; [|intros _; exact Hf].
      intros _. split; [exact Hgate|].
      apply orb_true_iff in H12. destruct H12 as [H1 | ->].
      * left. now apply is_restart_1_spec.
      * right. now apply is_restart_2_spec.
  - intros st' l' Hg.
    destruct (generation_break_inv _ _ _ _ _ _ _ _ Hs Hg) as (_ & -> & _).
    pose proof (sample_spec _ _ _ _ _ _ Hs)
      as (_ & _ & _ & _ & _ & _ & _ & Hr1 & _).
    split; [exact Hr1|]. unfold restart_fired. lia.
Qed.

(** C6. When a restart fires in a run that started from a freshly built
    object [st0]: the restart counter goes up by one; sigma becomes the
    sigma [st0] was built with, which the backup still holds; [initialize]
    is run with the restart flag set, on the object with that sigma; its
    fitness reading [y] is appended to the trace [fitness]; and the
    rolling history becomes the one-entry list of the new
    [best_so_far_y]. *)
Theorem restart_resets_to_construction_sigma
    args st0 st l x st1 l1 st2 l2 st' l' :
  ES_initialized st0 ->
  loop_head args st0 st l ->
  sample st args l = (x, st1, l1) ->
  adapt st1 x l1 = (st2, l2) ->
  generation args st l = Continue st' l' ->
  restart_fired st st' ->
  self.n_restart st' = S (self.n_restart st) /\
  self.sigma st' = self.sigma st0 /\
  self._sigma_bak st' = self.sigma st0 /\
  (exists st_i,
     initialize
       (self.set_sigma (self.sigma st0)
          (self.set_n_restart (S (self.n_restart st)) (appended st2)))
       args true
     = ((local.mean l', local.y l', local.best_so_far_y l'), st_i) /\
     st' = self.set__fitness_list [local.best_so_far_y l'] st_i) /\
  local.fitness l' = local.fitness l2 ++ [local.y l'] /\
  self._fitness_list st' = [local.best_so_far_y l'].
Proof.
  intros (Hbak0 & _) Hh Hs Ha Hg Hf.
  pose proof (loop_head_invariant _ _ _ _ Hh) as (Hset0 & _).
  assert (Hbak : self._sigma_bak st = self.sigma st0)
    by (destruct Hset0 as (_ & _ & _ & Hb & _); congruence).
  pose proof (generation_continue_cases _ _ _ _ _ _ _ _ _ _ Hs Ha Hg)
    as [(Hr & _) |
        (_ & _ & Hset & _ & _ & b2 & m & y & st_i & _ & _ & Hi & -> & ->)].
  { unfold restart_fired in Hf. lia. }
  pose proof (sample_spec _ _ _ _ _ _ Hs)
    as (_ & _ & _ & _ & _ & Hset1 & _ & Hr1 & _).
  pose proof (adapt_spec _ _ _ _ _ Ha) as (_ & _ & Hset2 & Hr2 & _).
  assert (Hbak2 : self._sigma_bak st2 = self.sigma st0).
  { destruct Hset1 as (_ & _ & _ & Hb1 & _).
    destruct Hset2 as (_ & _ & _ & Hb2 & _). congruence. }
  assert (Hn2 : self.n_restart st2 = self.n_restart st) by congruence.
  rewrite Hbak2, Hn2 in Hi.
  pose proof (initialize_spec _ _ _ _ _ _ _ Hi)
    as (_ & _ & Hseti & Hsigi & _).
  cbn in Hsigi. cbn.
  split; [exact Hf|]. split; [exact Hsigi|].
  split.
  { destruct Hset as (_ & _ & _ & Hb & _). cbn in Hb. congruence. }
  split; [|split; reflexivity].
  exists st_i. split; [exact Hi | reflexivity].
Qed.

(** C7, as the code has it. In every generation that passes the
    termination check with the gate [is_restart] open, line 130 appends
    the attribute [best_so_far_y] of the object, which is not the variable
    [best_so_far_y] of the loop, to the rolling history, whether a restart
    fires or not: the two detectors read the history with that entry, and
    it is the history the generation leaves when no restart fires. Only
    when a restart fires is the history then replaced by a one-entry list.
    With the gate closed, and in the generation that leaves the loop,
    nothing is appended. *)
Theorem history_append_at_every_restart_check
    args st l x st1 l1 st2 l2 :
  sample st args l = (x, st1, l1) ->
  adapt st1 x l1 = (st2, l2) ->
  let history := self._fitness_list st ++ [self.best_so_far_y st2] in
  (forall st' l',
     generation args st l = Continue st' l' ->
     self.is_restart st = true ->
     self._fitness_list (appended st2) = history /\
     restart_initialize st2 args l2 = Return (st', l') /\
     (restart_fired st st' <->
      DetectorA (appended st2) \/ DetectorB (appended st2)) /\
     (~ restart_fired st st' -> self._fitness_list st' = history) /\
     (restart_fired st st' ->
      self._fitness_list st' = [local.best_so_far_y l'])) /\
  (forall st' l',
     generation args st l = Continue st' l' ->
     self.is_restart st = false ->
     self._fitness_list st' = self._fitness_list st) /\
  (forall st' l',
     generation args st l = Break st' l' ->
     self._fitness_list st' = self._fitness_list st).
Proof.
  intros Hs Ha history.
  pose proof (sample_spec _ _ _ _ _ _ Hs)
    as (_ & _ & _ & _ & _ & _ & _ & _ & _ & Hf1 & _).
  pose proof (adapt_spec _ _ _ _ _ Ha) as (_ & _ & _ & _ & _ & Hf2 & _).
  split; [|split].
  - intros st' l' Hg Hgate.
    pose proof (generation_continue_inv _ _ _ _ _ _ _ _ _ _ Hs Ha Hg)
      as (_ & [(Hoff & _) | (_ & Hri)]); [congruence|].
    assert (Hh : self._fitness_list (appended st2) = history)
      by (unfold history; cbn; congruence).
    split; [exact Hh|]. split; [exact Hri|].
    pose proof (generation_continue_cases _ _ _ _ _ _ _ _ _ _ Hs Ha Hg)
      as [(Hr & _ & _ & _ & _ & _ & Hq) |
          (Hf & _ & _ & _ & _ & b2 & m & y & st_i & H2 & H12 & _ & -> & ->)].
    + assert (Hnf : ~ restart_fired st st')
        by (unfold restart_fired; lia).
      destruct Hq as [(Hoff & _) | (_ & -> & H1 & H2)]; [congruence|].
      split; [|split; [intros _; exact Hh | intros; contradiction]].
      split; [intros; contradiction|].
      intros [HA | HB].
      * apply is_restart_1_spec in HA. congruence.
      * apply is_restart_2_spec in HB. congruence.
    + split; [|split; [intros; contradiction | intros _; reflexivity]].
      split; [|intros _; exact Hf].
      intros _. apply orb_true_iff in H12. destruct H12 as [H1 | ->].
      * left. now apply is_restart_1_spec.
      * right. now apply is_restart_2_spec.
  - intros st' l' Hg Hgate.
    pose proof (generation_continue_inv _ _ _ _ _ _ _ _ _ _ Hs Ha Hg)
      as (_ & [(_ & -> & _) | (Hon & _)]); congruence.
  - intros st' l' Hg.
    destruct (generation_break_inv _ _ _ _ _ _ _ _ Hs Hg) as (_ & -> & _).
    exact Hf1.
Qed.


End Properties.

(** ** The sample runs, evaluated *)

Ltac unfold_run :=
  unfold loop_entry, generation, sample, iterate, adapt, _print_verbose_info,
    restart_initialize, is_restart_1, is_restart_2, getitem, initialize,
    _initialize_mean, _evaluate_fitness,
    res_object, res_entry, local_entry, res_sampled, local_sampled,
    res_adapted, local_adapted, res_restarted, local_restarted,
    offspring, offspring_y, sigma_grown.

Lemma sphere_run_entry budget gate window :
  loop_entry (base := sphere_run budget) (res_object gate window) None
  = (res_entry gate window, local_entry).
Proof. unfold_run. evaluate. reflexivity. Qed.

Lemma sphere_run_sample budget gate window :
  sample (base := sphere_run budget) (res_entry gate window) None local_entry
  = (offspring, res_sampled gate window, local_sampled).
Proof. unfold_run. evaluate. reflexivity. Qed.

Lemma sphere_run_adapt gate window :
  adapt (res_sampled gate window) offspring local_sampled
  = (res_adapted gate window, local_adapted).
Proof. unfold_run. evaluate. reflexivity. Qed.

Lemma sphere_run_generation_quiet window :
  generation (base := sphere_run 100) None (res_entry false window) local_entry
  = Continue (res_adapted false window) local_adapted.
Proof. unfold_run. evaluate. reflexivity. Qed.

Lemma sphere_run_generation_last gate window :
  generation (base := sphere_run 2) None (res_entry gate window) local_entry
  = Break (res_sampled gate window) local_sampled.
Proof. unfold_run. evaluate. reflexivity. Qed.

Lemma sphere_run_restart_initialize :
  restart_initialize (base := sphere_run 100) (res_adapted true 1) None
                     local_adapted
  = Return (res_restarted, local_restarted).
Proof.
  unfold_run. evaluate. rewrite orb_true_r.
  unfold_run. evaluate. reflexivity.
Qed.

Lemma sphere_run_generation_restart :
  generation (base := sphere_run 100) None (res_entry true 1) local_entry
  = Continue res_restarted local_restarted.
Proof.
  rewrite (generation_unfold _ _ _ _ _ _ _ _
             (sphere_run_sample 100 true 1) (sphere_run_adapt true 1)).
  rewrite sphere_run_restart_initialize. reflexivity.
Qed.

Lemma sigma_grown_large : 1 / 2 < sigma_grown.
Proof.
  unfold sigma_grown. rewrite Rpower_exp.
  pose proof (exp_ineq1 (1 * (1 - 1 / 5))) as H.
  assert (H0 : 1 + 1 * (1 - 1 / 5) < exp (1 * (1 - 1 / 5))) by (apply H; lra).
  lra.
Qed.

Lemma sphere_run_quiet_check :
  restart_initialize (base := sphere_run 100) (res_adapted true 5) None
                     local_adapted
  = Return (appended (res_adapted true 5), local_adapted).
Proof.
  apply restart_initialize_quiet.
  - unfold is_restart_1, appended, res_adapted. cbn.
    apply ltR_false. pose proof sigma_grown_large. lra.
  - reflexivity.
Qed.

Lemma sphere_run_generation_checked :
  generation (base := sphere_run 100) None (res_entry true 5) local_entry
  = Continue (appended (res_adapted true 5)) local_adapted.
Proof.
  rewrite (generation_unfold _ _ _ _ _ _ _ _
             (sphere_run_sample 100 true 5) (sphere_run_adapt true 5)).
  rewrite sphere_run_quiet_check. reflexivity.
Qed.

Lemma res_object_initialized gate window :
  ES_initialized (res_object gate window).
Proof. repeat split. Qed.

Lemma sphere_run_restarted_head :
  loop_head (base := sphere_run 100) None (res_object true 1)
            res_restarted local_restarted.
Proof.
  eapply head_next.
  - apply head_entry. apply sphere_run_entry.
  - apply sphere_run_generation_restart.
Qed.

(** ** Construction *)

Lemma default_eta_sigma_positive (n : nat) : 0 < 1 / sqrt (INR n + 1).
Proof.
  apply Rdiv_lt_0_compat; [lra|].
  apply sqrt_lt_R0. pose proof (pos_INR n). lra.
Qed.

(** C9. [RES.__init__] gives an absent [eta_sigma] the value
    [1 / sqrt(ndim_problem + 1)], fails its assertion on an [eta_sigma]
    that is zero or negative, and otherwise keeps the value given. The
    object it returns has a positive [eta_sigma] and is the object of the
    base class in everything else, the evaluation count included: nothing
    is evaluated at construction. In a run on that object the learning
    rate is positive at every head of the loop. *)
Theorem learning_rate_default_and_check (es : ES) :
  (self.eta_sigma es = None ->
   __init__ es =
     Return (self.set_eta_sigma (1 / sqrt (INR (self.ndim_problem es) + 1)) es)) /\
  (forall e, self.eta_sigma es = Some e -> e <= 0 ->
   __init__ es = Raise AssertionError) /\
  (forall e, self.eta_sigma es = Some e -> 0 < e ->
   __init__ es = Return (self.set_eta_sigma e es)) /\
  (forall res, __init__ es = Return res ->
   0 < self.eta_sigma res /\
   res = self.set_eta_sigma (self.eta_sigma res) es /\
   self.n_function_evaluations res = self.n_function_evaluations es) /\
  (forall (base : Collaborator) args res st l,
   __init__ es = Return res ->
   loop_head args res st l ->
   0 < self.eta_sigma st).
Proof.
  assert (Hret : forall res, __init__ es = Return res ->
                 0 < self.eta_sigma res /\
                 res = self.set_eta_sigma (self.eta_sigma res) es).
  { intros res H. unfold __init__ in H.
    destruct (ltR 0 _) eqn:E; inversion H; subst; clear H.
    apply ltR_spec in E. cbn. split; [exact E | reflexivity]. }
  split; [|split; [|split; [|split]]].
  - intros H. unfold __init__. rewrite H.
    now rewrite (ltR_true _ _ (default_eta_sigma_positive _)).
  - intros e H Hle. unfold __init__. rewrite H.
    rewrite ltR_false by lra. reflexivity.
  - intros e H Hlt. unfold __init__. rewrite H.
    now rewrite (ltR_true _ _ Hlt).
  - intros res H. destruct (Hret res H) as (Hpos & Heq).
    repeat split; try assumption. rewrite Heq. reflexivity.
  - intros base args res st l H Hh.
    destruct (Hret res H) as (Hpos & _).
    apply loop_head_invariant in Hh.
    destruct Hh as ((_ & _ & Heta & _) & _). congruence.
Qed.

(** The three cases on the options of the sample run. *)
Example init_default gate window :
  __init__ (es_object None gate window)
  = Return (self.set_eta_sigma (1 / sqrt (INR 1 + 1))
              (es_object None gate window)).
Proof.
  unfold __init__, es_object. cbn [self.eta_sigma self.ndim_problem].
  now rewrite (ltR_true _ _ (default_eta_sigma_positive 1)).
Qed.

Example init_zero_rate gate window :
  __init__ (es_object (Some 0) gate window) = Raise AssertionError.
Proof. unfold __init__. cbn. now rewrite ltR_false by lra. Qed.

Example init_sample_run gate window :
  __init__ (es_object (Some 1) gate window) = Return (res_object gate window).
Proof. unfold __init__. cbn. now rewrite ltR_true by lra. Qed.

(** ** Two more sample runs, evaluated *)

Ltac unfold_more :=
  unfold loop_entry, generation, sample, iterate, adapt, _print_verbose_info,
    restart_initialize, is_restart_1, is_restart_2, getitem, initialize,
    _initialize_mean, _evaluate_fitness,
    res_low_object, res_low_entry, res_low_sampled,
    walk_object, walk_entry, walk_sampled, walk_local_sampled, walk_adapted,
    walk_restarted, walk_local_restarted, walk_sampled2, walk_local_sampled2,
    walk_adapted2, walk_local_second, walk_second, walk_x2, walk_y1, walk_y2,
    local_entry, local_sampled, offspring, offspring_y.

Lemma sigma_grown_above_one : 1 < sigma_grown.
Proof.
  unfold sigma_grown. rewrite Rpower_exp.
  pose proof (exp_ineq1 (1 * (1 - 1 / 5))) as H.
  assert (H0 : 1 + 1 * (1 - 1 / 5) < exp (1 * (1 - 1 / 5))) by (apply H; lra).
  lra.
Qed.

Lemma sigma_shrunk_below_one : sigma_shrunk < 1.
Proof.
  unfold sigma_shrunk. rewrite Rpower_exp.
  assert (H : exp (1 * (0 - 1 / 5)) < exp 0) by (apply exp_increasing; lra).
  rewrite exp_0 in H. lra.
Qed.

Lemma low_run_entry :
  loop_entry (base := sphere_run 2) res_low_object None
  = (res_low_entry, local_entry).
Proof. unfold_more. evaluate. reflexivity. Qed.

Lemma low_run_sample :
  sample (base := sphere_run 2) res_low_entry None local_entry
  = (offspring, res_low_sampled, local_sampled).
Proof. unfold_more. evaluate. reflexivity. Qed.

Lemma low_run_generation :
  generation (base := sphere_run 2) None res_low_entry local_entry
  = Break res_low_sampled local_sampled.
Proof. unfold_more. evaluate. reflexivity. Qed.

Lemma walk_entry_eq :
  loop_entry (base := sphere_walk) walk_object None
  = (walk_entry, local_entry).
Proof. unfold_more. evaluate. reflexivity. Qed.

Lemma walk_sample :
  sample (base := sphere_walk) walk_entry None local_entry
  = ([3 + 1 * 1], walk_sampled, walk_local_sampled).
Proof. unfold_more. evaluate. reflexivity. Qed.

Lemma walk_adapt :
  adapt walk_sampled [3 + 1 * 1] walk_local_sampled
  = (walk_adapted, walk_local_sampled).
Proof. unfold_more. evaluate. reflexivity. Qed.

Lemma walk_restart :
  restart_initialize (base := sphere_walk) walk_adapted None walk_local_sampled
  = Return (walk_restarted, walk_local_restarted).
Proof.
  destruct (restart_initialize_fires (base := sphere_walk)
              walk_adapted None walk_local_sampled false eq_refl)
    as (m & y & st_i & Hi & Hr).
  { rewrite orb_false_r. unfold is_restart_1, appended, walk_adapted. cbn.
    apply ltR_true. exact sigma_shrunk_below_one. }
  rewrite Hr. revert Hi. unfold_more. unfold appended. evaluate.
  intros Hi. inversion Hi; subst. reflexivity.
Qed.

Lemma walk_generation :
  generation (base := sphere_walk) None walk_entry local_entry
  = Continue walk_restarted walk_local_restarted.
Proof.
  rewrite (generation_unfold _ _ _ _ _ _ _ _ walk_sample walk_adapt).
  rewrite walk_restart. reflexivity.
Qed.

Lemma walk_restarted_head :
  loop_head (base := sphere_walk) None walk_object
            walk_restarted walk_local_restarted.
Proof.
  eapply head_next.
  - apply head_entry. apply walk_entry_eq.
  - apply walk_generation.
Qed.

Lemma walk_sample2 :
  sample (base := sphere_walk) walk_restarted None walk_local_restarted
  = (walk_x2, walk_sampled2, walk_local_sampled2).
Proof. unfold_more. evaluate. reflexivity. Qed.

Lemma walk_adapt2 :
  adapt walk_sampled2 walk_x2 walk_local_sampled2
  = (walk_adapted2, walk_local_second).
Proof. unfold_more. unfold sigma_grown. evaluate. reflexivity. Qed.

Lemma walk_generation2 :
  generation (base := sphere_walk) None walk_restarted walk_local_restarted
  = Continue walk_second walk_local_second.
Proof.
  rewrite (generation_unfold _ _ _ _ _ _ _ _ walk_sample2 walk_adapt2).
  rewrite (restart_initialize_quiet (base := sphere_walk)
             walk_adapted2 None walk_local_second).
  - reflexivity.
  - unfold is_restart_1, appended, walk_adapted2. cbn.
    apply ltR_false. pose proof sigma_grown_above_one. lra.
  - reflexivity.
Qed.

(** ** The theorems on the sample runs *)

(** C1 on the first generation of the sample run: the offspring is better,
    sigma grows by [exp(0.8 * eta_sigma)]. *)
Lemma sigma_update_one_fifth_rule_witness :
  self.sigma (res_adapted false 5) =
  self.sigma (res_entry false 5) * exp (0.8 * self.eta_sigma (res_entry false 5)).
Proof.
  refine (proj1 (proj2
    (sigma_update_one_fifth_rule (base := sphere_run 100) None
       (res_entry false 5) local_entry offspring
       (res_sampled false 5) local_sampled
       (res_adapted false 5) local_adapted
       (res_adapted false 5) local_adapted
       (sphere_run_sample 100 false 5) (sphere_run_adapt false 5)
       (sphere_run_generation_quiet 5))) _).
  unfold local_sampled, local_entry, offspring_y. cbn. lra.
Defined.

(** C2 on the first generation of the sample run: the better offspring
    becomes the incumbent. *)
Lemma incumbent_replaced_iff_strictly_better_witness :
  local.mean local_adapted = offspring /\
  local.best_so_far_y local_adapted = local.y local_sampled.
Proof.
  refine (proj1 (proj1 (proj2
    (incumbent_replaced_iff_strictly_better (base := sphere_run 100) None
       (res_entry false 5) local_entry offspring
       (res_sampled false 5) local_sampled
       (sphere_run_sample 100 false 5)))
    (res_adapted false 5) local_adapted
    (sphere_run_generation_quiet 5) _) _).
  - unfold restart_fired. cbn. discriminate.
  - unfold local_sampled, local_entry, offspring_y. cbn. lra.
Defined.

(** C2 as the spec states it fails twice over. In the generation that
    leaves the loop: with a budget of two evaluations the first generation
    of the sample run is the last; its offspring [2] has the fitness [4],
    strictly below the incumbent's [9], and yet [mean] and [best_so_far_y]
    stay [3] and [9]. In a generation that restarts: with the gate open
    and a window of one the same offspring passes the check, and the
    generation ends with [mean] at the restart point [5] and
    [best_so_far_y = 25]. *)
Lemma improving_offspring_is_not_always_adopted :
  (sample (base := sphere_run 2) (res_entry false 5) None local_entry
     = (offspring, res_sampled false 5, local_sampled) /\
   generation (base := sphere_run 2) None (res_entry false 5) local_entry
     = Break (res_sampled false 5) local_sampled /\
   local.y local_sampled < local.best_so_far_y local_entry /\
   local.mean local_sampled = local.mean local_entry /\
   local.mean local_sampled <> offspring /\
   local.best_so_far_y local_sampled = local.best_so_far_y local_entry /\
   local.best_so_far_y local_sampled <> local.y local_sampled) /\
  (sample (base := sphere_run 100) (res_entry true 1) None local_entry
     = (offspring, res_sampled true 1, local_sampled) /\
   generation (base := sphere_run 100) None (res_entry true 1) local_entry
     = Continue res_restarted local_restarted /\
   local.y local_sampled < local.best_so_far_y local_entry /\
   local.mean local_restarted <> offspring /\
   local.best_so_far_y local_restarted <> local.y local_sampled).
Proof.
  split.
  - split; [apply sphere_run_sample|].
    split; [apply sphere_run_generation_last|].
    unfold local_sampled, local_entry, offspring, offspring_y. cbn.
    repeat split; try lra.
    intros H. inversion H. lra.
  - split; [apply sphere_run_sample|].
    split; [apply sphere_run_generation_restart|].
    unfold local_sampled, local_entry, local_restarted, offspring,
      offspring_y. cbn.
    repeat split; try lra.
    intros H. inversion H. lra.
Defined.

(** C3 on the sample run with the gate open and a window of one: after
    the first generation, in which a restart fires, three evaluations. *)
Lemma evaluations_count_generations_and_restarts_witness :
  self.n_function_evaluations res_restarted =
  (1 + self._n_generations res_restarted + self.n_restart res_restarted)%nat.
Proof.
  exact (proj1
    (evaluations_count_generations_and_restarts (base := sphere_run 100) None
       (res_object true 1) res_restarted local_restarted
       (res_object_initialized true 1) sphere_run_restarted_head)).
Defined.

(** C3 as the spec states it fails once a restart has fired: at that loop
    head one generation is complete and three evaluations are counted,
    not two. *)
Lemma restart_costs_an_evaluation :
  ES_initialized (res_object true 1) /\
  loop_head (base := sphere_run 100) None (res_object true 1)
            res_restarted local_restarted /\
  self._n_generations res_restarted = 1%nat /\
  self.n_function_evaluations res_restarted = 3%nat /\
  self.n_function_evaluations res_restarted
    <> (1 + self._n_generations res_restarted)%nat.
Proof.
  split; [apply res_object_initialized|].
  split; [apply sphere_run_restarted_head|].
  cbn. repeat split. discriminate.
Defined.

(** C4 on the first generation of the sample run with the gate closed. *)
Lemma incumbent_never_worsens_unless_restarted_witness :
  local.best_so_far_y local_adapted <= local.best_so_far_y local_entry.
Proof.
  refine (proj1
    (incumbent_never_worsens_unless_restarted (base := sphere_run 100) None
       (res_entry false 5) local_entry (res_adapted false 5) local_adapted
       (sphere_run_generation_quiet 5)) _).
  unfold restart_fired. cbn. discriminate.
Defined.

(** C4 as the spec states it fails across a restart: in the sample run
    with the gate open and a window of one, the first generation starts
    with [best_so_far_y = 9] and ends, restarted at the point [5], with
    [best_so_far_y = 25]. *)
Lemma restart_worsens_incumbent :
  loop_head (base := sphere_run 100) None (res_object true 1)
            (res_entry true 1) local_entry /\
  generation (base := sphere_run 100) None (res_entry true 1) local_entry
    = Continue res_restarted local_restarted /\
  restart_fired (res_entry true 1) res_restarted /\
  local.best_so_far_y local_entry < local.best_so_far_y local_restarted.
Proof.
  split; [apply head_entry, sphere_run_entry|].
  split; [apply sphere_run_generation_restart|].
  split; [reflexivity|].
  unfold local_entry, local_restarted. cbn. lra.
Defined.

(** C5 on the restart of the sample run: the gate is open and a detector
    is true. *)
Lemma restart_fires_iff_gate_and_detector_witness :
  self.is_restart (res_entry true 1) = true /\
  (DetectorA (appended (res_adapted true 1)) \/
   DetectorB (appended (res_adapted true 1))).
Proof.
  refine (proj1 (proj1 (proj1
    (restart_fires_iff_gate_and_detector (base := sphere_run 100) None
       (res_entry true 1) local_entry offspring
       (res_sampled true 1) local_sampled
       (res_adapted true 1) local_adapted
       (sphere_run_sample 100 true 1) (sphere_run_adapt true 1))
    res_restarted local_restarted sphere_run_generation_restart)) _).
  reflexivity.
Defined.

(** C5 as the spec states it fails in the generation that leaves the
    loop. With a sigma threshold of [10] and a budget of two evaluations,
    the first generation of the sample run has the gate open and sigma
    [1] below the threshold, before and after the sampling; it leaves the
    loop and no restart fires. *)
Lemma last_generation_fires_no_restart :
  loop_head (base := sphere_run 2) None res_low_object
            res_low_entry local_entry /\
  self.is_restart res_low_entry = true /\
  DetectorA res_low_entry /\
  DetectorA res_low_sampled /\
  DetectorA (appended res_low_sampled) /\
  generation (base := sphere_run 2) None res_low_entry local_entry
    = Break res_low_sampled local_sampled /\
  ~ restart_fired res_low_entry res_low_sampled /\
  self.n_restart res_low_sampled = 0%nat.
Proof.
  split; [apply head_entry, low_run_entry|].
  split; [reflexivity|].
  unfold DetectorA, appended, res_low_entry, res_low_sampled. cbn.
  split; [lra|]. split; [lra|]. split; [lra|].
  split; [apply low_run_generation|].
  split; [|reflexivity].
  unfold restart_fired. cbn. discriminate.
Defined.

(** C6 on the restart of the sample run: sigma, grown in that generation,
    is again the sigma of construction. *)
Lemma restart_resets_to_construction_sigma_witness :
  self.n_restart res_restarted = S (self.n_restart (res_entry true 1)) /\
  self.sigma res_restarted = self.sigma (res_object true 1).
Proof.
  pose proof
    (restart_resets_to_construction_sigma (base := sphere_run 100) None
       (res_object true 1) (res_entry true 1) local_entry offspring
       (res_sampled true 1) local_sampled
       (res_adapted true 1) local_adapted
       res_restarted local_restarted
       (res_object_initialized true 1)
       (head_entry None (res_object true 1) _ _ (sphere_run_entry 100 true 1))
       (sphere_run_sample 100 true 1) (sphere_run_adapt true 1)
       sphere_run_generation_restart eq_refl) as H.
  exact (conj (proj1 H) (proj1 (proj2 H))).
Defined.

(** C7 on the sample run with the gate open and a window of five: no
    restart fires in the first generation, and the history has its
    entry. *)
Lemma history_append_at_every_restart_check_witness :
  self._fitness_list (appended (res_adapted true 5)) =
  self._fitness_list (res_entry true 5)
    ++ [self.best_so_far_y (res_adapted true 5)].
Proof.
  refine (proj1 (proj2 (proj2 (proj2
    (proj1
       (history_append_at_every_restart_check (base := sphere_run 100) None
          (res_entry true 5) local_entry offspring
          (res_sampled true 5) local_sampled
          (res_adapted true 5) local_adapted
          (sphere_run_sample 100 true 5) (sphere_run_adapt true 5))
       (appended (res_adapted true 5)) local_adapted
       sphere_run_generation_checked eq_refl)))) _).
  unfold restart_fired. cbn. discriminate.
Defined.

(** C7 as the spec states it fails twice over. What is appended is not the
    loop's [best_so_far_y]: in the run whose first offspring fails and
    whose sigma falls below the threshold, the first generation restarts
    at [5]; the second adopts the offspring [4], so that [best_so_far_y]
    is [16], and leaves the history [25; 9], the [9] being the object's
    best fitness of the whole run. And the append is not made in every
    generation: with the gate closed the first generation of the sample
    run goes on and leaves the history as it was. *)
Lemma history_entry_is_not_the_incumbent_fitness :
  (loop_head (base := sphere_walk) None walk_object
             walk_restarted walk_local_restarted /\
   generation (base := sphere_walk) None walk_restarted walk_local_restarted
     = Continue walk_second walk_local_second /\
   ~ restart_fired walk_restarted walk_second /\
   self._fitness_list walk_second
     = self._fitness_list walk_restarted ++ [3 * 3 + 0] /\
   local.best_so_far_y walk_local_second = walk_y2 /\
   3 * 3 + 0 <> local.best_so_far_y walk_local_second) /\
  (generation (base := sphere_run 100) None (res_entry false 5) local_entry
     = Continue (res_adapted false 5) local_adapted /\
   self._fitness_list (res_adapted false 5)
     = self._fitness_list (res_entry false 5)).
Proof.
  split.
  - split; [apply walk_restarted_head|].
    split; [apply walk_generation2|].
    split; [unfold restart_fired; cbn; lia|].
    split; [reflexivity|]. split; [reflexivity|].
    unfold walk_local_second, walk_y2. cbn. lra.
  - split; [apply sphere_run_generation_quiet | reflexivity].
Defined.

(** C8 on the sample run with a budget of two evaluations: the first
    generation leaves the loop. *)
Lemma termination_check_before_updates_witness :
  _check_terminations (Collaborator := sphere_run 2) (res_sampled false 5)
    = true /\
  self.sigma (res_sampled false 5) = self.sigma (res_entry false 5) /\
  self._n_generations (res_sampled false 5)
    = self._n_generations (res_entry false 5) /\
  local.mean local_sampled = local.mean local_entry /\
  local.best_so_far_y local_sampled = local.best_so_far_y local_entry /\
  local.fitness local_sampled =
    (if self.record_fitness (res_entry false 5)
     then local.fitness local_entry
            ++ [fitness_function (Collaborator := sphere_run 2) offspring None]
     else local.fitness local_entry).
Proof.
  exact (proj2 (proj2 (proj2 (proj2
    (termination_check_before_updates (base := sphere_run 2) None
       (res_entry false 5) local_entry offspring
       (res_sampled false 5) local_sampled
       (sphere_run_sample 2 false 5)))))
    (res_sampled false 5) local_sampled (sphere_run_generation_last false 5)).
Defined.


(** The whole of [optimize] on the sample run with a budget of two
    evaluations: one turn of the loop, and the results. *)
Example optimize_sample_run :
  optimize (base := sphere_run 2) 1 (res_object false 5) None
  = Some (Return (mk_results [3 * 3 + 0; offspring_y] [3] offspring_y 2 0 0)).
Proof.
  unfold optimize. rewrite sphere_run_entry. cbn [while_true].
  rewrite sphere_run_generation_last. reflexivity.
Qed.

(** * Further properties of the run *)

Section Further.

Context {base : Collaborator}.

Implicit Types (st : RES) (l : local.t) (args : option Args).

(** ** The incumbent *)

(** At every head of the loop [best_so_far_y] is the objective's value at
    [mean]: the incumbent and its fitness are always replaced together. *)
Theorem incumbent_fitness_is_fitness_of_mean args st0 st l :
  loop_head args st0 st l ->
  local.best_so_far_y l = fitness_function (local.mean l) args.
Proof.
  induction 1 as [st l He | st l st' l' Hh IH Hg].
  - apply loop_entry_spec in He.
    destruct He as (_ & _ & _ & _ & _ & Hm & Hy & Hb & _). congruence.
  - destruct (sample st args l) as [[x st1] l1] eqn:Hs.
    destruct (adapt st1 x l1) as [st2 l2] eqn:Ha.
    pose proof (sample_spec _ _ _ _ _ _ Hs) as (_ & Hy & Hm1 & Hb1 & _).
    pose proof (adapt_spec _ _ _ _ _ Ha) as (_ & Hl2 & _).
    destruct (generation_continue_cases _ _ _ _ _ _ _ _ _ _ Hs Ha Hg)
      as [(_ & -> & _) |
          (_ & _ & _ & _ & _ & b2 & m & y & st_i & _ & _ & Hi & _ & ->)].
    + subst l2. destruct (ltR _ _); cbn; congruence.
    + apply initialize_spec in Hi. cbn. tauto.
Qed.

(** ** The trace *)

(** One generation only extends the trace [fitness]: what was recorded
    stays, in order, and at most two readings are added (the offspring's
    when [record_fitness] is set, the restart point's when a restart
    fires). *)
Theorem trace_is_only_extended args st l st' l' :
  generation args st l = Continue st' l' \/
  generation args st l = Break st' l' ->
  exists added : list R,
    local.fitness l' = local.fitness l ++ added /\
    (length added <= 2)%nat /\
    (self.record_fitness st = false -> ~ restart_fired st st' ->
     added = []).
Proof.
  intros Hg.
  destruct (sample st args l) as [[x st1] l1] eqn:Hs.
  destruct (adapt st1 x l1) as [st2 l2] eqn:Ha.
  pose proof (sample_spec _ _ _ _ _ _ Hs)
    as (_ & _ & _ & _ & Hf1 & _ & _ & Hr1 & _).
  pose proof (adapt_spec _ _ _ _ _ Ha) as (_ & Hl2 & _).
  assert (Hf2 : local.fitness l2 = local.fitness l1)
    by (subst l2; destruct (ltR _ _); reflexivity).
  assert (H1 : exists a1, local.fitness l1 = local.fitness l ++ a1 /\
                          (length a1 <= 1)%nat /\
                          (self.record_fitness st = false -> a1 = [])).
  { rewrite Hf1. destruct (self.record_fitness st).
    - exists [local.y l1]. cbn. repeat split; [lia | discriminate].
    - exists []. rewrite app_nil_r. cbn. repeat split; lia. }
  destruct H1 as (a1 & Ha1 & Hlen1 & Hoff1).
  destruct Hg as [Hg | Hg].
  - destruct (generation_continue_cases _ _ _ _ _ _ _ _ _ _ Hs Ha Hg)
      as [(_ & -> & _) |
          (Hf & _ & _ & _ & _ & b2 & m & y & st_i & _ & _ & _ & _ & ->)].
    + exists a1. rewrite Hf2. repeat split; auto; lia.
    + exists (a1 ++ [y]). cbn. rewrite Hf2, Ha1, <- app_assoc.
      rewrite length_app. cbn. repeat split; [lia|].
      intros _ Hnot. contradiction.
  - destruct (generation_break_inv _ _ _ _ _ _ _ _ Hs Hg) as (_ & _ & ->).
    exists a1. repeat split; auto; lia.
Qed.

(** At every head of the loop of a run that started with its counters at
    zero, the trace holds the first fitness, one reading per restart and,
    when [record_fitness] is set, one per completed generation. *)
Theorem trace_length args st0 st l :
  ES_initialized st0 ->
  loop_head args st0 st l ->
  length (local.fitness l) =
    (1 + (if self.record_fitness st0 then self._n_generations st else 0)
       + self.n_restart st)%nat.
Proof.
  intros (_ & Hr0 & Hg0 & _) Hh.
  induction Hh as [st l He | st l st' l' Hh IH Hg].
  - apply loop_entry_spec in He.
    destruct He as (_ & _ & Hr & Hgen & _ & _ & _ & _ & ->).
    cbn. destruct (self.record_fitness st0); lia.
  - pose proof (loop_head_invariant _ _ _ _ Hh)
      as ((_ & _ & _ & _ & _ & _ & _ & _ & Hrec) & _).
    destruct (sample st args l) as [[x st1] l1] eqn:Hs.
    destruct (adapt st1 x l1) as [st2 l2] eqn:Ha.
    pose proof (sample_spec _ _ _ _ _ _ Hs)
      as (_ & _ & _ & _ & Hf1 & _).
    pose proof (adapt_spec _ _ _ _ _ Ha) as (_ & Hl2 & _).
    assert (Hf2 : local.fitness l2 = local.fitness l1)
      by (subst l2; destruct (ltR _ _); reflexivity).
    rewrite Hrec in Hf1.
    destruct (generation_continue_cases _ _ _ _ _ _ _ _ _ _ Hs Ha Hg)
      as [(Hr & -> & _ & _ & _ & Hgen & _) |
          (Hf & _ & _ & Hgen & _ & b2 & m & y & st_i & _ & _ & _ & _ & ->)].
    + rewrite Hf2, Hf1, Hr, Hgen.
      destruct (self.record_fitness st0);
        [rewrite length_app; cbn|]; lia.
    + unfold restart_fired in Hf. cbn. rewrite length_app, Hf2, Hf1, Hf, Hgen.
      destruct (self.record_fitness st0);
        [rewrite length_app; cbn|cbn]; lia.
Qed.

(** ** What a run leaves alone *)

(** Nothing in a run assigns the dimension, the initial mean, the learning
    rate, the backup of sigma, the two thresholds, the stagnation window
    or the two flags: at every head of the loop they are as [optimize]
    found them. *)
Theorem run_keeps_its_settings args st0 st l :
  loop_head args st0 st l ->
  same_settings st0 st.
Proof. intros Hh. apply (loop_head_invariant _ _ _ _ Hh). Qed.

(** The two counters of a run only go up, the generation counter by one
    per turn of the loop, and a generation restarts at most once: the
    restarts of a run are never more than its completed generations. *)
Theorem restarts_at_most_generations args st0 st l :
  loop_head args st0 st l ->
  (self.n_restart st0 <= self.n_restart st)%nat /\
  (self._n_generations st0 <= self._n_generations st)%nat /\
  (self.n_restart st - self.n_restart st0
   <= self._n_generations st - self._n_generations st0)%nat.
Proof.
  induction 1 as [st l He | st l st' l' Hh IH Hg].
  - apply loop_entry_spec in He.
    destruct He as (_ & _ & Hr & Hgen & _). lia.
  - destruct (sample st args l) as [[x st1] l1] eqn:Hs.
    destruct (adapt st1 x l1) as [st2 l2] eqn:Ha.
    destruct (generation_continue_cases _ _ _ _ _ _ _ _ _ _ Hs Ha Hg)
      as [(Hr & _ & _ & _ & _ & Hgen & _) | (Hf & _ & _ & Hgen & _)].
    + lia.
    + unfold restart_fired in Hf. lia.
Qed.

(** ** The stagnation window at its edges *)

Lemma appended_history st :
  self._fitness_list (appended st)
  = self._fitness_list st ++ [self.best_so_far_y st].
Proof. reflexivity. Qed.

Lemma len_appended st :
  len (self._fitness_list (appended st)) = (len (self._fitness_list st) + 1)%Z.
Proof. rewrite appended_history. unfold len. rewrite length_app. cbn. lia. Qed.

(** While the history, the new entry counted, is shorter than the window,
    the second detector is false: only a sigma below its threshold can
    fire a restart. *)
Theorem short_history_leaves_step_size_detector
    args st l x st1 l1 st2 l2 st' l' :
  sample st args l = (x, st1, l1) ->
  adapt st1 x l1 = (st2, l2) ->
  generation args st l = Continue st' l' ->
  (len (self._fitness_list st) + 1 < self.stagnation st)%Z ->
  (restart_fired st st' <->
   self.is_restart st = true /\
   self.sigma st2 < self.sigma_threshold st).
Proof.
  intros Hs Ha Hg Hshort.
  pose proof (sample_spec _ _ _ _ _ _ Hs)
    as (_ & _ & _ & _ & _ & (_ & _ & _ & _ & Ht1 & Hw1 & _) & _ & _ & _ & Hf1 & _).
  pose proof (adapt_spec _ _ _ _ _ Ha)
    as (_ & _ & (_ & _ & _ & _ & Ht2 & Hw2 & _) & _ & _ & Hf2 & _).
  assert (H2 : is_restart_2 (appended st2) = Return false).
  { unfold is_restart_2.
    destruct (Z.leb_spec (self.stagnation (appended st2))
                         (len (self._fitness_list (appended st2))))
      as [Hle|Hlt]; [|reflexivity].
    rewrite len_appended in Hle.
    change (self.stagnation (appended st2)) with (self.stagnation st2) in Hle.
    rewrite Hf2, Hf1, Hw2, Hw1 in Hle. lia. }
  assert (HA : is_restart_1 (appended st2) = true <->
               self.sigma st2 < self.sigma_threshold st).
  { unfold is_restart_1. cbn. rewrite Ht2, Ht1. apply ltR_spec. }
  destruct (generation_continue_cases _ _ _ _ _ _ _ _ _ _ Hs Ha Hg)
    as [(Hr & _ & _ & _ & _ & _ & Hq) |
        (Hf & Hgate & _ & _ & _ & b2 & m & y & st_i & H2' & H12 & _)].
  - assert (Hnf : ~ restart_fired st st') by (unfold restart_fired; lia).
    split; [intros; contradiction|]. intros (Hgate & Hlt).
    destruct Hq as [(Hoff & _) | (_ & _ & H1 & _)]; [congruence|].
    apply HA in Hlt. congruence.
  - split; [|intros _; exact Hf]. intros _. split; [exact Hgate|].
    rewrite H2 in H2'. inversion H2'; subst b2.
    rewrite orb_false_r in H12. now apply HA.
Qed.


(** With a window of zero the index [-0] is the index [0]: the second
    detector compares the oldest entry of the history with the newest. *)
Theorem window_of_zero_reads_oldest_entry st :
  self.stagnation st = 0%Z ->
  is_restart_2 (appended st) =
    Return (ltR (hd (self.best_so_far_y st) (self._fitness_list st)
                 - self.best_so_far_y st)
                (self.fitness_diff st)).
Proof.
  intros Hw. unfold is_restart_2.
  change (self.stagnation (appended st)) with (self.stagnation st).
  change (self.fitness_diff (appended st)) with (self.fitness_diff st).
  rewrite Hw, len_appended.
  destruct (Z.leb_spec 0 (len (self._fitness_list st) + 1)) as [_|Hlt];
    [|unfold len in Hlt; lia].
  rewrite appended_history.
  change (- 0)%Z with 0%Z. rewrite getitem_last.
  assert (H0 : getitem (self._fitness_list st ++ [self.best_so_far_y st]) 0
               = Return (hd (self.best_so_far_y st) (self._fitness_list st))).
  { unfold getitem. rewrite length_app. cbn [length Z.ltb Z.compare].
    replace (0 <=? 0)%Z with true by reflexivity.
    replace (0 <? Z.of_nat (length (self._fitness_list st) + 1))%Z with true
      by (symmetry; apply Z.ltb_lt; lia).
    cbn [andb Z.to_nat]. destruct (self._fitness_list st); reflexivity. }
  rewrite H0. reflexivity.
Qed.

(** A negative window is an index from the front: when it points beyond
    the history, [restart_initialize] raises [IndexError]. *)
Theorem negative_window_out_of_range_raises st args l :
  (self.stagnation st < 0)%Z ->
  (len (self._fitness_list st) + 1 <= - self.stagnation st)%Z ->
  restart_initialize st args l = Raise IndexError.
Proof.
  intros Hneg Hout. apply restart_initialize_raises.
  unfold is_restart_2.
  change (self.stagnation (appended st)) with (self.stagnation st).
  rewrite len_appended.
  destruct (Z.leb_spec (self.stagnation st) (len (self._fitness_list st) + 1))
    as [_|Hlt]; [|unfold len in Hlt; lia].
  unfold getitem at 1. rewrite appended_history, length_app. cbn [length].
  unfold len in Hout.
  destruct (Z.ltb_spec (- self.stagnation st) 0) as [H|_]; [lia|].
  destruct (Z.leb_spec 0 (- self.stagnation st)) as [_|H]; [|lia].
  destruct (Z.ltb_spec (- self.stagnation st)
              (Z.of_nat (length (self._fitness_list st) + 1))) as [H|_]; [lia|].
  reflexivity.
Qed.

(** ** The whole run *)

(** With a stagnation window that is not negative, [optimize] raises
    nothing, however long it runs. *)
Theorem optimize_never_raises fuel st0 args e :
  (0 <= self.stagnation st0)%Z ->
  optimize fuel st0 args <> Some (Raise e).
Proof.
  intros Hw.
  assert (Hloop : forall fuel st l,
            (0 <= self.stagnation st)%Z ->
            while_true fuel args st l <> Some (Raise e)).
  { clear. induction fuel as [|fuel IH]; intros st l Hw; cbn [while_true].
    - discriminate.
    - destruct (generation args st l) as [st' l' | st' l' | e'] eqn:Hg.
      + discriminate.
      + apply IH.
        destruct (sample st args l) as [[x st1] l1] eqn:Hs.
        destruct (adapt st1 x l1) as [st2 l2] eqn:Ha.
        destruct (generation_continue_cases _ _ _ _ _ _ _ _ _ _ Hs Ha Hg)
          as [(_ & _ & _ & _ & (_ & _ & _ & _ & _ & Hw' & _) & _) |
              (_ & _ & (_ & _ & _ & _ & _ & Hw' & _) & _)]; congruence.
      + exfalso. exact (generation_never_raises _ _ _ _ Hw Hg). }
  unfold optimize.
  destruct (loop_entry st0 args) as [st l] eqn:He.
  pose proof (loop_entry_spec _ _ _ _ He)
    as ((_ & _ & _ & _ & _ & Hw' & _) & _).
  specialize (Hloop fuel st l).
  destruct (while_true fuel args st l) as [[[st' l'] | e'] |].
  - discriminate.
  - intros H. inversion H; subst. apply Hloop; [congruence | reflexivity].
  - discriminate.
Qed.

(** The loop under an evaluation budget, the restart gate closed: from a
    loop head with fewer evaluations than the budget it is left when the
    budget is reached, after one generation per evaluation. *)
Lemma while_true_budget (budget : nat) args :
  (forall st, _check_terminations st
              = (budget <=? self.n_function_evaluations st)%nat) ->
  forall fuel st l,
    self.is_restart st = false ->
    (self.n_function_evaluations st < budget)%nat ->
    (budget <= self.n_function_evaluations st + fuel)%nat ->
    exists st' l',
      while_true fuel args st l = Some (Return (st', l')) /\
      self.n_function_evaluations st' = budget /\
      (self._n_generations st' + self.n_function_evaluations st + 1
       = self._n_generations st + budget)%nat /\
      self.n_restart st' = self.n_restart st /\
      local.best_so_far_y l' <= local.best_so_far_y l.
Proof.
  intros Hcheck. induction fuel as [|fuel IH]; intros st l Hgate Hlt Hfuel.
  - lia.
  - cbn [while_true].
    destruct (sample st args l) as [[x st1] l1] eqn:Hs.
    destruct (adapt st1 x l1) as [st2 l2] eqn:Ha.
    pose proof (sample_spec _ _ _ _ _ _ Hs)
      as (_ & _ & _ & Hb1 & _ & _ & _ & Hr1 & Hg1 & _ & Hn1).
    pose proof (adapt_spec _ _ _ _ _ Ha)
      as (_ & Hl2 & (_ & _ & _ & _ & _ & _ & _ & Hgate2 & _)
          & Hr2 & Hg2 & _ & _ & Hn2).
    rewrite (generation_unfold _ _ _ _ _ _ _ _ Hs Ha), Hcheck, Hgate, Hn1.
    destruct (Nat.leb_spec budget (S (self.n_function_evaluations st)))
      as [Hle | Hgt].
    + exists st1, l1. repeat split; try lia; try congruence. lra.
    + assert (Hle2 : local.best_so_far_y l2 <= local.best_so_far_y l).
      { subst l2. destruct (ltR _ _) eqn:E; cbn.
        - apply ltR_spec in E. lra.
        - lra. }
      destruct (IH st2 l2) as (st' & l' & Hw & Hn' & Hg' & Hr' & Hb');
        try lia.
      { apply sample_spec in Hs.
        destruct Hs as (_ & _ & _ & _ & _ & (_ & _ & _ & _ & _ & _ & _ & Hgate1 & _) & _).
        congruence. }
      exists st', l'. repeat split; try assumption; try lia; try congruence.
      lra.
Qed.

(** A run under an evaluation budget of at least two, the restart gate
    closed and the counters at zero: [optimize] returns, having spent the
    budget exactly, with two generations fewer than evaluations and no
    restart. *)
Theorem optimize_spends_the_budget (budget : nat) st0 args :
  (forall st, _check_terminations st
              = (budget <=? self.n_function_evaluations st)%nat) ->
  ES_initialized st0 ->
  self.is_restart st0 = false ->
  (2 <= budget)%nat ->
  exists r,
    optimize budget st0 args = Some (Return r) /\
    r_n_function_evaluations r = budget /\
    r__n_generations r = (budget - 2)%nat /\
    r_n_restart r = 0%nat.
Proof.
  intros Hcheck (_ & Hr0 & Hg0 & Hn0) Hgate Hbudget.
  unfold optimize.
  destruct (loop_entry st0 args) as [st l] eqn:He.
  pose proof (loop_entry_spec _ _ _ _ He)
    as ((_ & _ & _ & _ & _ & _ & _ & Hgate' & _) & _ & Hr & Hg & Hn & _).
  destruct (while_true_budget budget args Hcheck budget st l)
    as (st' & l' & Hw & Hn' & Hg' & Hr' & _); try lia; try congruence.
  rewrite Hw. eexists. split; [reflexivity|]. cbn. repeat split; lia.
Qed.

End Further.

(** ** The default learning rate *)

(** The learning rate that [RES.__init__] gives when none is supplied lies
    in the interval from zero (excluded) to one, and a problem of more
    dimensions never gets a larger one. *)
Theorem default_learning_rate_bounds (es es' : ES) (res res' : RES) :
  self.eta_sigma es = None ->
  self.eta_sigma es' = None ->
  __init__ es = Return res ->
  __init__ es' = Return res' ->
  0 < self.eta_sigma res <= 1 /\
  ((self.ndim_problem es <= self.ndim_problem es')%nat ->
   self.eta_sigma res' <= self.eta_sigma res).
Proof.
  intros Hn Hn' Hi Hi'.
  assert (Hval : forall e r, self.eta_sigma e = None -> __init__ e = Return r ->
            self.eta_sigma r = 1 / sqrt (INR (self.ndim_problem e) + 1)).
  { intros e r He Hr. unfold __init__ in Hr. rewrite He in Hr.
    destruct (ltR 0 _); inversion Hr; subst. reflexivity. }
  rewrite (Hval _ _ Hn Hi), (Hval _ _ Hn' Hi').
  assert (Hsq : forall n : nat, 1 <= sqrt (INR n + 1)).
  { intros n. rewrite <- sqrt_1 at 1. apply sqrt_le_1_alt.
    pose proof (pos_INR n). lra. }
  split.
  - split; [apply default_eta_sigma_positive|].
    pose proof (Hsq (self.ndim_problem es)) as H1.
    apply (Rmult_le_reg_r (sqrt (INR (self.ndim_problem es) + 1))); [lra|].
    field_simplify; lra.
  - intros Hle. apply le_INR in Hle.
    pose proof (Hsq (self.ndim_problem es)) as H1.
    pose proof (Hsq (self.ndim_problem es')) as H2.
    assert (Hmono : sqrt (INR (self.ndim_problem es) + 1)
                    <= sqrt (INR (self.ndim_problem es') + 1))
      by (apply sqrt_le_1_alt; lra).
    unfold Rdiv. rewrite !Rmult_1_l.
    apply Rinv_le_contravar; lra.
Qed.

(** ** The further properties on the sample runs *)

Lemma incumbent_fitness_is_fitness_of_mean_witness :
  local.best_so_far_y local_restarted
  = fitness_function (Collaborator := sphere_run 100)
      (local.mean local_restarted) None.
Proof.
  exact (incumbent_fitness_is_fitness_of_mean (base := sphere_run 100) None
           (res_object true 1) res_restarted local_restarted
           sphere_run_restarted_head).
Defined.

Lemma trace_is_only_extended_witness :
  exists added : list R,
    local.fitness local_restarted = local.fitness local_entry ++ added /\
    (length added <= 2)%nat /\
    (self.record_fitness (res_entry true 1) = false ->
     ~ restart_fired (res_entry true 1) res_restarted -> added = []).
Proof.
  exact (trace_is_only_extended (base := sphere_run 100) None
           (res_entry true 1) local_entry res_restarted local_restarted
           (or_introl sphere_run_generation_restart)).
Defined.

Lemma trace_length_witness :
  length (local.fitness local_restarted) =
  (1 + (if self.record_fitness (res_object true 1)
        then self._n_generations res_restarted else 0)
     + self.n_restart res_restarted)%nat.
Proof.
  exact (trace_length (base := sphere_run 100) None
           (res_object true 1) res_restarted local_restarted
           (res_object_initialized true 1) sphere_run_restarted_head).
Defined.

Lemma run_keeps_its_settings_witness :
  same_settings (res_object true 1) res_restarted.
Proof.
  exact (run_keeps_its_settings (base := sphere_run 100) None
           (res_object true 1) res_restarted local_restarted
           sphere_run_restarted_head).
Defined.

Lemma restarts_at_most_generations_witness :
  (self.n_restart (res_object true 1) <= self.n_restart res_restarted)%nat /\
  (self._n_generations (res_object true 1)
   <= self._n_generations res_restarted)%nat /\
  (self.n_restart res_restarted - self.n_restart (res_object true 1)
   <= self._n_generations res_restarted
      - self._n_generations (res_object true 1))%nat.
Proof.
  exact (restarts_at_most_generations (base := sphere_run 100) None
           (res_object true 1) res_restarted local_restarted
           sphere_run_restarted_head).
Defined.

Lemma short_history_leaves_step_size_detector_witness :
  restart_fired (res_entry true 5) (appended (res_adapted true 5)) <->
  self.is_restart (res_entry true 5) = true /\
  self.sigma (res_adapted true 5) < self.sigma_threshold (res_entry true 5).
Proof.
  apply (short_history_leaves_step_size_detector (base := sphere_run 100) None
           (res_entry true 5) local_entry offspring
           (res_sampled true 5) local_sampled
           (res_adapted true 5) local_adapted
           (appended (res_adapted true 5)) local_adapted
           (sphere_run_sample 100 true 5) (sphere_run_adapt true 5)
           sphere_run_generation_checked).
  cbn. lia.
Defined.


Lemma window_of_zero_reads_oldest_entry_witness :
  is_restart_2 (appended (res_adapted true 0)) =
  Return (ltR (hd (self.best_so_far_y (res_adapted true 0))
                  (self._fitness_list (res_adapted true 0))
               - self.best_so_far_y (res_adapted true 0))
              (self.fitness_diff (res_adapted true 0))).
Proof.
  exact (window_of_zero_reads_oldest_entry (res_adapted true 0) eq_refl).
Defined.

Lemma negative_window_out_of_range_raises_witness :
  restart_initialize (base := sphere_run 100) (res_adapted true (-5)) None
                     local_adapted
  = Raise IndexError.
Proof.
  apply (negative_window_out_of_range_raises (base := sphere_run 100)
           (res_adapted true (-5)) None local_adapted).
  - cbn. lia.
  - cbn. lia.
Defined.

Lemma optimize_never_raises_witness :
  optimize (base := sphere_run 2) 1 (res_object false 5) None
  <> Some (Raise IndexError).
Proof.
  apply (optimize_never_raises (base := sphere_run 2) 1
           (res_object false 5) None IndexError).
  cbn. lia.
Defined.

Lemma optimize_spends_the_budget_witness :
  exists r,
    optimize (base := sphere_run 2) 2 (res_object false 5) None
      = Some (Return r) /\
    r_n_function_evaluations r = 2%nat /\
    r__n_generations r = (2 - 2)%nat /\
    r_n_restart r = 0%nat.
Proof.
  apply (optimize_spends_the_budget (base := sphere_run 2) 2
           (res_object false 5) None).
  - intros st. reflexivity.
  - apply res_object_initialized.
  - reflexivity.
  - lia.
Defined.

Lemma default_learning_rate_bounds_witness :
  0 < 1 / sqrt (INR 1 + 1) <= 1.
Proof.
  exact (proj1 (default_learning_rate_bounds
           (es_object None false 5) (es_object None true 1) _ _
           eq_refl eq_refl (init_default false 5) (init_default true 1))).
Defined.
